(** * Weather enrichment and daily aggregation: a shallow embedding

    The two transformation scripts of the repository are embedded side by
    side, each in a module of its own:

    - [Simple]      scripts/transformation/data_transformation.py
                    (class SimpleWeatherTransformation)
    - [Checkpoint]  scripts/transformation/.ipynb_checkpoints/
                    data_transformation-checkpoint.py
                    (class WeatherDataTransformation)

    A float cell of a DataFrame is a rational or NaN; arithmetic is exact
    (rounding is not modelled; the source divides by non-zero constants
    only).  Labels are the strings of the source.  The store is reached
    through calls that return or raise; what a run hands to a writer is
    part of its outcome. *)

From Stdlib Require Import QArith Qabs Lqa ZArith Lia.
From stdpp Require Import gmap strings list sorting pretty.

Open Scope string_scope.

(** ** Python and pandas primitives *)
Module Py.

(** A float cell: [None] is NaN (what [pd.isna] accepts, Python's [None]
    included). *)
Definition num : Type := option Q.

Definition lit (q : Q) : num := Some q.
Arguments lit q%_Q_scope.

Definition isna {A : Type} (x : option A) : bool :=
  match x with None => true | Some _ => false end.

Definition Qltb (a b : Q) : bool := negb (Qle_bool b a).

(** Comparisons: every comparison with NaN is [False]. *)
Definition lt (x y : num) : bool :=
  match x, y with Some a, Some b => Qltb a b | _, _ => false end.
Definition le (x y : num) : bool :=
  match x, y with Some a, Some b => Qle_bool a b | _, _ => false end.
Definition gt (x y : num) : bool := lt y x.
Definition ge (x y : num) : bool := le y x.

(** Arithmetic: NaN propagates. *)
Definition lift2 (f : Q -> Q -> Q) (x y : num) : num :=
  match x, y with Some a, Some b => Some (f a b) | _, _ => None end.
Definition add : num -> num -> num := lift2 Qplus.
Definition sub : num -> num -> num := lift2 Qminus.
Definition mul : num -> num -> num := lift2 Qmult.
Definition div : num -> num -> num := lift2 Qdiv.
Definition abs (x : num) : num := option_map Qabs x.

(** [max(a, b)] and [min(a, b)]: the first argument is kept unless the
    second one is strictly beyond it. *)
Definition max (a b : num) : num := if gt b a then b else a.
Definition min (a b : num) : num := if lt b a then b else a.

(** [Series.fillna(v)] on one cell. *)
Definition fillna (v : Q) (x : num) : num :=
  match x with None => Some v | Some _ => x end.

(** [x in [a, b, c]] for a month cell (NaN equals nothing). *)
Definition in_list (x : option Z) (l : list Z) : bool :=
  match x with
  | Some m => existsb (Z.eqb m) l
  | None => false
  end.

(** Exceptions: a computation returns or raises with a message. *)
Inductive exc (A : Type) : Type :=
| Raise (e : string)
| Return (a : A).
Arguments Raise {A} e.
Arguments Return {A} a.

#[global] Instance exc_ret : MRet exc := fun A a => Return a.
#[global] Instance exc_bind : MBind exc := fun A B k c =>
  match c with
  | Raise e => Raise e
  | Return a => k a
  end.

(** Calendar values, as [Series.dt] exposes them. *)
Record Date : Type := { year : Z; month : Z; day : Z }.
Record Timestamp : Type :=
  { ts_date : Date; ts_hour : Z; ts_minute : Z; ts_second : Z }.

#[global] Instance Date_eq_dec : EqDecision Date.
Proof. solve_decision. Defined.

(** A TIMESTAMP cell as fetched: NULL, a value pandas reads as a
    timestamp, or text that is no timestamp. *)
Inductive ts_cell : Type :=
| TsNull
| TsValue (t : Timestamp)
| TsText (s : string).

(** [pd.to_datetime(cell, errors='coerce')]: what does not parse is NaT. *)
Definition to_datetime_coerce (c : ts_cell) : option Timestamp :=
  match c with
  | TsValue t => Some t
  | TsNull | TsText _ => None
  end.

(** [pd.to_datetime(cell)]: NULL is NaT, text that is no timestamp raises. *)
Definition to_datetime (c : ts_cell) : exc (option Timestamp) :=
  match c with
  | TsValue t => Return (Some t)
  | TsNull => Return None
  | TsText s => Raise ("Unknown datetime string format, unable to parse: " ++ s)
  end.

(** [dt.day_name()]: the weekday of a Gregorian date (Monday first). *)
Definition weekday (d : Date) : Z :=
  let t := nth (Z.to_nat (month d - 1))
             [0; 3; 2; 5; 0; 3; 5; 1; 4; 6; 2; 4]%Z 0%Z in
  let y := (if month d <? 3 then year d - 1 else year d)%Z in
  ((y + y / 4 - y / 100 + y / 400 + t + day d + 6) mod 7)%Z.

Definition day_name (d : Date) : string :=
  nth (Z.to_nat (weekday d))
    ["Monday"; "Tuesday"; "Wednesday"; "Thursday"; "Friday"; "Saturday";
     "Sunday"] "".

(** Values stored in a result dictionary. *)
Inductive pyval : Type :=
| VStr (s : string)
| VInt (n : Z).

#[global] Instance pyval_eq_dec : EqDecision pyval.
Proof. solve_decision. Defined.

End Py.

Declare Scope num_scope.
Delimit Scope num_scope with num.
Bind Scope num_scope with Py.num.
Notation "x + y" := (Py.add x y) : num_scope.
Notation "x - y" := (Py.sub x y) : num_scope.
Notation "x * y" := (Py.mul x y) : num_scope.
Notation "x / y" := (Py.div x y) : num_scope.
Notation "x <? y" := (Py.lt x y) : num_scope.
Notation "x <=? y" := (Py.le x y) : num_scope.
Notation "x >? y" := (Py.gt x y) : num_scope.
Notation "x >=? y" := (Py.ge x y) : num_scope.

(** ** data_transformation.py *)
Module Simple.
Import Py.

Definition get_hemisphere (latitude : num) : string :=
  if isna latitude then "UNKNOWN"
  else if (latitude >? lit 0)%num then "NORTHERN"
  else if (latitude <? lit 0)%num then "SOUTHERN"
  else "EQUATORIAL".

Definition get_climate_zone (latitude : num) : string :=
  if isna latitude then "UNKNOWN"
  else
    let abs_lat := abs latitude in
    if (abs_lat <=? lit 23.5)%num then "TROPICAL"
    else if (abs_lat <=? lit 35)%num then "SUBTROPICAL"
    else if (abs_lat <=? lit 55)%num then "TEMPERATE"
    else "POLAR".

Definition calculate_comfort_index (temp humidity wind_speed : num) : num :=
  if isna temp || isna humidity then None
  else
    let temp_score := max (lit 0) (lit 100 - abs (temp - lit 21) * lit 5)%num in
    let humidity_penalty := (abs (humidity - lit 50) * lit 0.3)%num in
    let wind_penalty :=
      if negb (isna wind_speed) then (abs (wind_speed - lit 5) * lit 2)%num
      else lit 0 in
    let comfort := (temp_score - humidity_penalty - wind_penalty)%num in
    max (lit 0) (min (lit 100) comfort).

(** A row of BRONZE.CURRENT_WEATHER_RAW as the query returns it (the
    specification's RawObservation). *)
Record RawObservation : Type := {
  city_id : option string;
  city_name : option string;
  country_code : option string;
  latitude : num;
  longitude : num;
  timestamp : ts_cell;
  weather_main : option string;
  weather_description : option string;
  temperature : num;
  feels_like : num;
  temp_min : num;
  temp_max : num;
  pressure : num;
  humidity : num;
  wind_speed : num;
  wind_deg : num;
  clouds : num;
  ingestion_date : option Date
}.

(** A row of [df_valid] restricted to [silver_columns] (the specification's
    EnrichedObservation, without severity). *)
Record SilverRow : Type := {
  CITY_ID : option string;
  CITY_NAME : option string;
  COUNTRY_CODE : option string;
  LATITUDE : num;
  LONGITUDE : num;
  TIMESTAMP : option Timestamp;
  WEATHER_MAIN : option string;
  WEATHER_DESCRIPTION : option string;
  TEMPERATURE : num;
  FEELS_LIKE : num;
  TEMP_MIN : num;
  TEMP_MAX : num;
  PRESSURE : num;
  HUMIDITY : num;
  WIND_SPEED : num;
  WIND_DEG : num;
  CLOUDS : num;
  DATE : option Date;
  HOUR : option Z;
  DAY_OF_WEEK : option string;
  MONTH : option Z;
  SEASON : string;
  HEMISPHERE : string;
  CLIMATE_ZONE : string;
  TEMPERATURE_CATEGORY : string;
  HUMIDITY_CATEGORY : string;
  COMFORT_INDEX : num;
  COMFORT_LEVEL : string;
  DATA_QUALITY_FLAG : string;
  INGESTION_DATE : option Date
}.

(** "Fill missing values": [fillna(0)] on WIND_SPEED, WIND_DEG and CLOUDS
    ([pd.to_numeric(errors='coerce')] leaves a float cell as it is). *)
Definition fill_missing (r : RawObservation) : RawObservation :=
  {| city_id := city_id r; city_name := city_name r;
     country_code := country_code r;
     latitude := latitude r; longitude := longitude r;
     timestamp := timestamp r;
     weather_main := weather_main r;
     weather_description := weather_description r;
     temperature := temperature r; feels_like := feels_like r;
     temp_min := temp_min r; temp_max := temp_max r;
     pressure := pressure r; humidity := humidity r;
     wind_speed := fillna 0 (wind_speed r);
     wind_deg := fillna 0 (wind_deg r);
     clouds := fillna 0 (clouds r);
     ingestion_date := ingestion_date r |}.

(** "Data quality flag": VALID unless the mask
    [(TEMPERATURE < -50) | (TEMPERATURE > 60)] holds. *)
Definition quality_flag (r : RawObservation) : string :=
  if (temperature r <? lit (-50))%num || (temperature r >? lit 60)%num
  then "EXTREME_TEMPERATURE" else "VALID".

Definition get_season (month : option Z) : string :=
  if in_list month [12; 1; 2]%Z then "WINTER"
  else if in_list month [3; 4; 5]%Z then "SPRING"
  else if in_list month [6; 7; 8]%Z then "SUMMER"
  else "AUTUMN".

Definition categorize_temperature (temp : num) : string :=
  if isna temp then "UNKNOWN"
  else if (temp <? lit 0)%num then "FREEZING"
  else if (temp <? lit 10)%num then "COLD"
  else if (temp <? lit 20)%num then "COOL"
  else if (temp <? lit 30)%num then "WARM"
  else "HOT".

Definition categorize_humidity (humidity : num) : string :=
  if isna humidity then "UNKNOWN"
  else if (humidity <? lit 30)%num then "DRY"
  else if (humidity <? lit 60)%num then "COMFORTABLE"
  else if (humidity <? lit 80)%num then "HUMID"
  else "VERY_HUMID".

Definition categorize_comfort (comfort : num) : string :=
  if isna comfort then "UNKNOWN"
  else if (comfort >=? lit 80)%num then "VERY_COMFORTABLE"
  else if (comfort >=? lit 60)%num then "COMFORTABLE"
  else if (comfort >=? lit 40)%num then "MODERATE"
  else if (comfort >=? lit 20)%num then "UNCOMFORTABLE"
  else "VERY_UNCOMFORTABLE".

(** The column assignments on [df_valid], one row at a time; [r] is a row
    of [df_silver] and [flag] its DATA_QUALITY_FLAG. *)
Definition enrich (r : RawObservation) (flag : string) : SilverRow :=
  let ts := to_datetime_coerce (timestamp r) in
  let date := ts_date <$> ts in
  let month := Py.month <$> date in
  let comfort_index :=
    calculate_comfort_index (temperature r) (humidity r) (wind_speed r) in
  {| CITY_ID := city_id r; CITY_NAME := city_name r;
     COUNTRY_CODE := country_code r;
     LATITUDE := latitude r; LONGITUDE := longitude r;
     TIMESTAMP := ts;
     WEATHER_MAIN := weather_main r;
     WEATHER_DESCRIPTION := weather_description r;
     TEMPERATURE := temperature r; FEELS_LIKE := feels_like r;
     TEMP_MIN := temp_min r; TEMP_MAX := temp_max r;
     PRESSURE := pressure r; HUMIDITY := humidity r;
     WIND_SPEED := wind_speed r; WIND_DEG := wind_deg r;
     CLOUDS := clouds r;
     DATE := date;
     HOUR := ts_hour <$> ts;
     DAY_OF_WEEK := day_name <$> date;
     MONTH := month;
     SEASON := get_season month;
     HEMISPHERE := get_hemisphere (latitude r);
     CLIMATE_ZONE := get_climate_zone (latitude r);
     TEMPERATURE_CATEGORY := categorize_temperature (temperature r);
     HUMIDITY_CATEGORY := categorize_humidity (humidity r);
     COMFORT_INDEX := comfort_index;
     COMFORT_LEVEL := categorize_comfort comfort_index;
     DATA_QUALITY_FLAG := flag;
     INGESTION_DATE := ingestion_date r |}.

(** The store, as [transform_data] uses it: every call returns or raises. *)
Record Store : Type := {
  connect : exc unit;
  create_silver_tables : exc unit;
  read_sql : exc (list RawObservation);
  (** [(success, nrows)] of [write_pandas] *)
  write_pandas : list SilverRow -> exc (bool * Z);
  (** [conn.close()], called inside the [try] *)
  close : exc unit
}.

(** What a run leaves behind: the returned dictionary and the batch handed
    to [write_pandas], if the run got that far. *)
Record Outcome : Type := {
  result : gmap string pyval;
  to_silver : option (list SilverRow)
}.

Definition valid_rows (df_bronze : list RawObservation)
  : list (RawObservation * string) :=
  let df_silver := fill_missing <$> df_bronze in
  let flagged := (fun r => (r, quality_flag r)) <$> df_silver in
  filter (fun rf => rf.2 = "VALID") flagged.

Definition failed (e : string) : gmap string pyval :=
  {[ "status" := VStr "FAILED"; "error" := VStr e ]}.

(** [conn.close(); return {'status': 'WARNING', 'message': message}]: the
    close is inside the [try], so a close that raises gives FAILED. *)
Definition close_with_warning (s : Store) (message : string)
  : gmap string pyval :=
  match close s with
  | Raise e => failed e
  | Return _ => {[ "status" := VStr "WARNING"; "message" := VStr message ]}
  end.

Definition transform_data (s : Store) : Outcome :=
  match (_ ← connect s; _ ← create_silver_tables s; read_sql s) with
  | Raise e => {| result := failed e; to_silver := None |}
  | Return df_bronze =>
      match df_bronze with
      | [] =>
          {| result := close_with_warning s "No bronze data";
             to_silver := None |}
      | _ :: _ =>
          match valid_rows df_bronze with
          | [] =>
              {| result := close_with_warning s "No valid data";
                 to_silver := None |}
          | (_ :: _) as valid =>
              let df_valid := (fun rf => enrich rf.1 rf.2) <$> valid in
              {| result :=
                   match (written ← write_pandas s df_valid;
                          _ ← close s; mret written) with
                   | Raise e => failed e
                   | Return (true, nrows) =>
                       {[ "status" := VStr "SUCCESS";
                          "bronze_rows" := VInt (Z.of_nat (length df_bronze));
                          "silver_rows" := VInt nrows ]}
                   | Return (false, _) => failed "Silver write failed"
                   end;
                 to_silver := Some df_valid |}
          end
      end
  end.

(** The enriched batch of a run: what was handed to the writer. *)
Definition enriched (s : Store) : list SilverRow :=
  default [] (to_silver (transform_data s)).

End Simple.

(** ** .ipynb_checkpoints/data_transformation-checkpoint.py *)
Module Checkpoint.
Import Py.

(** A row of BRONZE.CURRENT_WEATHER_RAW as the query returns it (the
    specification's RawObservation). *)
Record RawObservation : Type := {
  CITY_ID : option Z;
  CITY_NAME : option string;
  COUNTRY_CODE : option string;
  LATITUDE : num;
  LONGITUDE : num;
  TIMESTAMP : ts_cell;
  WEATHER_MAIN : option string;
  WEATHER_DESCRIPTION : option string;
  TEMPERATURE : num;
  FEELS_LIKE : num;
  TEMP_MIN : num;
  TEMP_MAX : num;
  PRESSURE : num;
  HUMIDITY : num;
  WIND_SPEED : num;
  WIND_DEG : num;
  CLOUD_COVERAGE : num;
  INGESTION_DATE : option Date
}.

(** A row of [df_valid]: the cleaned columns and the added ones (the
    specification's EnrichedObservation). *)
Record SilverRow : Type := {
  clean : RawObservation;
  DATA_QUALITY_FLAG : string;
  DATE : option Date;
  HOUR : option Z;
  DAY_OF_WEEK : option string;
  MONTH : option Z;
  SEASON : string;
  HEMISPHERE : string;
  CLIMATE_ZONE : string;
  TEMPERATURE_CATEGORY : string;
  HUMIDITY_CATEGORY : string;
  COMFORT_INDEX : num;
  COMFORT_LEVEL : string;
  WEATHER_SEVERITY_SCORE : num;
  SEVERITY_LEVEL : string
}.

Definition get_hemisphere (latitude : num) : string :=
  if (latitude >? lit 0)%num then "NORTHERN"
  else if (latitude <? lit 0)%num then "SOUTHERN"
  else "EQUATORIAL".

Definition get_climate_zone (latitude : num) : string :=
  let abs_lat := abs latitude in
  if (abs_lat <=? lit 23.5)%num then "TROPICAL"
  else if (abs_lat <=? lit 35)%num then "SUBTROPICAL"
  else if (abs_lat <=? lit 55)%num then "TEMPERATE"
  else "POLAR".

Definition calculate_comfort_index (temp humidity wind_speed : num) : num :=
  if isna temp || isna humidity then None
  else
    let temp_score := max (lit 0) (lit 100 - abs (temp - lit 21) * lit 5)%num in
    let humidity_penalty := (abs (humidity - lit 50) * lit 0.3)%num in
    let wind_penalty :=
      if negb (isna wind_speed) then (abs (wind_speed - lit 5) * lit 2)%num
      else lit 0 in
    let comfort := (temp_score - humidity_penalty - wind_penalty)%num in
    max (lit 0) (min (lit 100) comfort).

(** "Fill missing values" *)
Definition fill_missing (r : RawObservation) : RawObservation :=
  {| CITY_ID := CITY_ID r; CITY_NAME := CITY_NAME r;
     COUNTRY_CODE := COUNTRY_CODE r;
     LATITUDE := LATITUDE r; LONGITUDE := LONGITUDE r;
     TIMESTAMP := TIMESTAMP r;
     WEATHER_MAIN := WEATHER_MAIN r;
     WEATHER_DESCRIPTION := WEATHER_DESCRIPTION r;
     TEMPERATURE := TEMPERATURE r; FEELS_LIKE := FEELS_LIKE r;
     TEMP_MIN := TEMP_MIN r; TEMP_MAX := TEMP_MAX r;
     PRESSURE := PRESSURE r; HUMIDITY := HUMIDITY r;
     WIND_SPEED := fillna 0 (WIND_SPEED r);
     WIND_DEG := fillna 0 (WIND_DEG r);
     CLOUD_COVERAGE := fillna 0 (CLOUD_COVERAGE r);
     INGESTION_DATE := INGESTION_DATE r |}.

(** "Add data quality flag" *)
Definition quality_flag (r : RawObservation) : string :=
  if (TEMPERATURE r <? lit (-50))%num || (TEMPERATURE r >? lit 60)%num
  then "EXTREME_TEMPERATURE" else "VALID".

Definition get_season (month : option Z) : string :=
  if in_list month [12; 1; 2]%Z then "WINTER"
  else if in_list month [3; 4; 5]%Z then "SPRING"
  else if in_list month [6; 7; 8]%Z then "SUMMER"
  else "AUTUMN".

Definition categorize_temperature (temp : num) : string :=
  if (temp <? lit 0)%num then "FREEZING"
  else if (temp <? lit 10)%num then "COLD"
  else if (temp <? lit 20)%num then "COOL"
  else if (temp <? lit 30)%num then "WARM"
  else "HOT".

Definition categorize_humidity (humidity : num) : string :=
  if (humidity <? lit 30)%num then "DRY"
  else if (humidity <? lit 60)%num then "COMFORTABLE"
  else if (humidity <? lit 80)%num then "HUMID"
  else "VERY_HUMID".

Definition categorize_comfort (comfort : num) : string :=
  if isna comfort then "UNKNOWN"
  else if (comfort >=? lit 80)%num then "VERY_COMFORTABLE"
  else if (comfort >=? lit 60)%num then "COMFORTABLE"
  else if (comfort >=? lit 40)%num then "MODERATE"
  else if (comfort >=? lit 20)%num then "UNCOMFORTABLE"
  else "VERY_UNCOMFORTABLE".

(** "Calculate weather severity" *)
Definition severity_score (temperature wind_speed humidity cloud_coverage : num)
  : num :=
  (abs (temperature - lit 21) / lit 40 * lit 0.4 +
   abs (wind_speed - lit 5) / lit 20 * lit 0.3 +
   abs (humidity - lit 50) / lit 100 * lit 0.2 +
   (lit 100 - cloud_coverage) / lit 100 * lit 0.1)%num.

Definition categorize_severity (score : num) : string :=
  if (score <? lit 0.2)%num then "MILD"
  else if (score <? lit 0.4)%num then "MODERATE"
  else if (score <? lit 0.6)%num then "SEVERE"
  else "EXTREME".

(** The column assignments on [df_valid], one row at a time; [r] is a row
    of [df_clean], [flag] its DATA_QUALITY_FLAG and [ts] what
    [pd.to_datetime] made of its TIMESTAMP. *)
Definition enrich (r : RawObservation) (flag : string)
    (ts : option Timestamp) : SilverRow :=
  let date := ts_date <$> ts in
  let month := Py.month <$> date in
  let comfort_index :=
    calculate_comfort_index (TEMPERATURE r) (HUMIDITY r) (WIND_SPEED r) in
  let score :=
    severity_score (TEMPERATURE r) (WIND_SPEED r) (HUMIDITY r)
      (CLOUD_COVERAGE r) in
  {| clean := r;
     DATA_QUALITY_FLAG := flag;
     DATE := date;
     HOUR := ts_hour <$> ts;
     DAY_OF_WEEK := day_name <$> date;
     MONTH := month;
     SEASON := get_season month;
     HEMISPHERE := get_hemisphere (LATITUDE r);
     CLIMATE_ZONE := get_climate_zone (LATITUDE r);
     TEMPERATURE_CATEGORY := categorize_temperature (TEMPERATURE r);
     HUMIDITY_CATEGORY := categorize_humidity (HUMIDITY r);
     COMFORT_INDEX := comfort_index;
     COMFORT_LEVEL := categorize_comfort comfort_index;
     WEATHER_SEVERITY_SCORE := score;
     SEVERITY_LEVEL := categorize_severity score |}.

(** *** [create_daily_aggregations] *)

(** A cell of the aggregated frame.  [CRoot v] is the non-negative float
    whose square is [v]: a standard deviation, kept as its variance. *)
Inductive cell : Type :=
| CInt (n : option Z)
| CFloat (x : num)
| CRoot (v : num)
| CText (s : option string)
| CDate (d : option Date).

(** A DataFrame seen from outside: column labels and rows of cells. *)
Record frame (L : Type) : Type :=
  { columns : list L; rows : list (list cell) }.
Arguments columns {L} f.
Arguments rows {L} f.

(** A column of [df_silver] taken out for aggregation. *)
Inductive series : Type :=
| SFloat (l : list num)
| SText (l : list (option string)).

Definition float_columns : list (string * (SilverRow -> num)) :=
  [("LATITUDE", LATITUDE ∘ clean); ("LONGITUDE", LONGITUDE ∘ clean);
   ("TEMPERATURE", TEMPERATURE ∘ clean); ("FEELS_LIKE", FEELS_LIKE ∘ clean);
   ("TEMP_MIN", TEMP_MIN ∘ clean); ("TEMP_MAX", TEMP_MAX ∘ clean);
   ("PRESSURE", PRESSURE ∘ clean); ("HUMIDITY", HUMIDITY ∘ clean);
   ("WIND_SPEED", WIND_SPEED ∘ clean); ("WIND_DEG", WIND_DEG ∘ clean);
   ("CLOUD_COVERAGE", CLOUD_COVERAGE ∘ clean);
   ("COMFORT_INDEX", COMFORT_INDEX);
   ("WEATHER_SEVERITY_SCORE", WEATHER_SEVERITY_SCORE)].

Definition text_columns : list (string * (SilverRow -> option string)) :=
  [("CITY_NAME", CITY_NAME ∘ clean); ("COUNTRY_CODE", COUNTRY_CODE ∘ clean);
   ("WEATHER_MAIN", WEATHER_MAIN ∘ clean);
   ("WEATHER_DESCRIPTION", WEATHER_DESCRIPTION ∘ clean);
   ("DATA_QUALITY_FLAG", Some ∘ DATA_QUALITY_FLAG);
   ("DAY_OF_WEEK", DAY_OF_WEEK); ("SEASON", Some ∘ SEASON);
   ("HEMISPHERE", Some ∘ HEMISPHERE); ("CLIMATE_ZONE", Some ∘ CLIMATE_ZONE);
   ("TEMPERATURE_CATEGORY", Some ∘ TEMPERATURE_CATEGORY);
   ("HUMIDITY_CATEGORY", Some ∘ HUMIDITY_CATEGORY);
   ("COMFORT_LEVEL", Some ∘ COMFORT_LEVEL);
   ("SEVERITY_LEVEL", Some ∘ SEVERITY_LEVEL)].

Fixpoint assoc {V : Type} (k : string) (d : list (string * V)) : option V :=
  match d with
  | [] => None
  | (k', v) :: d' => if String.eqb k' k then Some v else assoc k d'
  end.

(** The float and text columns of [df_silver], by label. *)
Definition column (name : string) (df : list SilverRow) : exc series :=
  match assoc name float_columns, assoc name text_columns with
  | Some get, _ => Return (SFloat (get <$> df))
  | None, Some get => Return (SText (get <$> df))
  | None, None => Raise ("KeyError: " ++ name)
  end.

(** The reductions; each one skips null cells. *)
Section Reductions.
Context {A : Type} (eqb leb : A -> A -> bool).

Definition values (l : list (option A)) : list A := omap id l.

Definition count (l : list (option A)) : Z :=
  Z.of_nat (length (values l)).

Definition smallest (l : list (option A)) : option A :=
  match values l with
  | [] => None
  | x :: xs => Some (foldl (fun m y => if leb m y then m else y) x xs)
  end.

Definition largest (l : list (option A)) : option A :=
  match values l with
  | [] => None
  | x :: xs => Some (foldl (fun m y => if leb y m then m else y) x xs)
  end.

Fixpoint distinct (l : list A) : list A :=
  match l with
  | [] => []
  | x :: xs => x :: filter (fun y => eqb x y = false) (distinct xs)
  end.

Definition nunique (l : list (option A)) : Z :=
  Z.of_nat (length (distinct (values l))).

Definition occurrences (x : A) (l : list A) : nat :=
  length (filter (fun y => eqb x y = true) l).

(** [x.mode()]: the most frequent values, in ascending order; [mode0] is
    its first entry. *)
Definition mode0 (l : list (option A)) : option A :=
  let xs := values l in
  let top := foldr Nat.max 0%nat ((fun x => occurrences x xs) <$> xs) in
  smallest (Some <$> filter (fun x => occurrences x xs = top) xs).
End Reductions.

Definition Qsum (l : list Q) : Q := foldr Qplus 0%Q l.

Definition mean (l : list num) : num :=
  match values l with
  | [] => None
  | xs => Some (Qsum xs / inject_Z (Z.of_nat (length xs)))%Q
  end.

(** Sample variance ([std] has [ddof=1]): NaN below two values. *)
Definition variance (l : list num) : num :=
  match values l, mean l with
  | (_ :: _ :: _) as xs, Some m =>
      Some (Qsum ((fun x => (x - m) * (x - m))%Q <$> xs)
            / inject_Z (Z.of_nat (length xs) - 1))%Q
  | _, _ => None
  end.

(** The aggregations the dictionary names; [ModeOrUnknown] is
    [lambda x: x.mode()[0] if not x.mode().empty else 'UNKNOWN']. *)
Inductive aggfunc : Type :=
| Count | Mean | Min | Max | Std | Nunique | ModeOrUnknown.

Definition aggfunc_name (f : aggfunc) : string :=
  match f with
  | Count => "count" | Mean => "mean" | Min => "min" | Max => "max"
  | Std => "std" | Nunique => "nunique" | ModeOrUnknown => "<lambda>"
  end.

Definition apply_agg (f : aggfunc) (s : series) : exc cell :=
  match s, f with
  | SFloat l, Count => Return (CInt (Some (count l)))
  | SFloat l, Mean => Return (CFloat (mean l))
  | SFloat l, Min => Return (CFloat (smallest Qle_bool l))
  | SFloat l, Max => Return (CFloat (largest Qle_bool l))
  | SFloat l, Std => Return (CRoot (variance l))
  | SFloat l, Nunique => Return (CInt (Some (nunique Qeq_bool l)))
  | SFloat l, ModeOrUnknown =>
      Return (match mode0 Qeq_bool Qle_bool l with
              | Some x => CFloat (Some x)
              | None => CText (Some "UNKNOWN")
              end)
  | SText l, Count => Return (CInt (Some (count l)))
  | SText l, Min => Return (CText (smallest String.leb l))
  | SText l, Max => Return (CText (largest String.leb l))
  | SText l, Nunique => Return (CInt (Some (nunique String.eqb l)))
  | SText l, ModeOrUnknown =>
      Return (CText (Some (default "UNKNOWN" (mode0 String.eqb String.leb l))))
  | SText l, (Mean | Std) =>
      Raise "TypeError: Could not convert string to numeric"
  end.

(** A dictionary display: a repeated key keeps its first position and takes
    the last value. *)
Fixpoint dict_set {V : Type} (k : string) (v : V) (d : list (string * V))
  : list (string * V) :=
  match d with
  | [] => [(k, v)]
  | (k', v') :: d' =>
      if String.eqb k' k then (k', v) :: d' else (k', v') :: dict_set k v d'
  end.

Definition dict_display {V : Type} (items : list (string * V))
  : list (string * V) :=
  foldl (fun d kv => dict_set kv.1 kv.2 d) [] items.

Definition agg_spec : list (string * list aggfunc) :=
  dict_display
    [("TEMPERATURE", [Count; Mean; Min; Max; Std]);
     ("HUMIDITY", [Mean; Min; Max]);
     ("WIND_SPEED", [Mean; Max]);
     ("PRESSURE", [Mean]);
     ("COMFORT_INDEX", [Mean]);
     ("WEATHER_MAIN", [ModeOrUnknown]);
     ("WEATHER_MAIN", [Nunique])].

(** The grouping key: the six [groupby] columns of one row. *)
Record GroupKey : Type := {
  k_city_id : Z;
  k_city_name : string;
  k_country_code : string;
  k_date : Date;
  k_climate_zone : string;
  k_hemisphere : string
}.

#[global] Instance GroupKey_eq_dec : EqDecision GroupKey.
Proof. solve_decision. Defined.

Definition group_keys : list string :=
  ["CITY_ID"; "CITY_NAME"; "COUNTRY_CODE"; "DATE"; "CLIMATE_ZONE";
   "HEMISPHERE"].

(** [groupby] drops a row with a null key cell ([dropna=True]). *)
Definition key_of (r : SilverRow) : option GroupKey :=
  id ← CITY_ID (clean r);
  name ← CITY_NAME (clean r);
  country ← COUNTRY_CODE (clean r);
  date ← DATE r;
  Some {| k_city_id := id; k_city_name := name; k_country_code := country;
          k_date := date; k_climate_zone := CLIMATE_ZONE r;
          k_hemisphere := HEMISPHERE r |}.

Definition key_cells (k : GroupKey) : list cell :=
  [CInt (Some (k_city_id k)); CText (Some (k_city_name k));
   CText (Some (k_country_code k)); CDate (Some (k_date k));
   CText (Some (k_climate_zone k)); CText (Some (k_hemisphere k))].

Definition lex (c1 c2 : comparison) : comparison :=
  match c1 with Eq => c2 | _ => c1 end.

Definition date_compare (d1 d2 : Date) : comparison :=
  lex (year d1 ?= year d2)%Z
    (lex (month d1 ?= month d2)%Z (day d1 ?= day d2)%Z).

Definition key_compare (k1 k2 : GroupKey) : comparison :=
  lex (k_city_id k1 ?= k_city_id k2)%Z
    (lex (String.compare (k_city_name k1) (k_city_name k2))
       (lex (String.compare (k_country_code k1) (k_country_code k2))
          (lex (date_compare (k_date k1) (k_date k2))
             (lex (String.compare (k_climate_zone k1) (k_climate_zone k2))
                (String.compare (k_hemisphere k1) (k_hemisphere k2)))))).

Definition key_le (k1 k2 : GroupKey) : Prop := key_compare k1 k2 <> Gt.

#[global] Instance key_le_dec : RelDecision key_le.
Proof. intros k1 k2. unfold key_le. apply _. Defined.

(** [df.groupby(group_keys)]: the groups in ascending key order
    ([sort=True]), each with its rows in frame order. *)
Definition groupby (df : list SilverRow) : list (GroupKey * list SilverRow) :=
  let keyed := omap (fun r => (fun k => (k, r)) <$> key_of r) df in
  let keys := merge_sort key_le (remove_dups keyed.*1) in
  (fun k => (k, (filter (fun kr => kr.1 = k) keyed).*2)) <$> keys.

(** [.agg(spec)] on one group: a cell per entry and per function. *)
Definition aggregate (spec : list (string * list aggfunc))
    (members : list SilverRow) : exc (list cell) :=
  cells ← mapM (fun entry : string * list aggfunc =>
                  s ← column entry.1 members;
                  mapM (fun f => apply_agg f s) entry.2) spec;
  mret (concat cells).

Definition agg_labels (spec : list (string * list aggfunc))
  : list (string * string) :=
  concat ((fun entry : string * list aggfunc =>
             (fun f => (entry.1, aggfunc_name f)) <$> entry.2) <$> spec).

(** [df_silver.groupby([...]).agg({...}).reset_index()] *)
Definition groupby_agg (df_silver : list SilverRow)
  : exc (frame (string * string)) :=
  rows ← mapM (fun g : GroupKey * list SilverRow =>
                 cells ← aggregate agg_spec g.2;
                 mret (key_cells g.1 ++ cells)%list) (groupby df_silver);
  mret {| columns := (((fun k => (k, "")) <$> group_keys)
                        ++ agg_labels agg_spec)%list;
          rows := rows |}.

(** [frame.columns = names] *)
Definition set_columns {L L' : Type} (f : frame L) (names : list L')
  : exc (frame L') :=
  if decide (length (columns f) = length names)
  then Return {| columns := names; rows := rows f |}
  else Raise ("Length mismatch: Expected axis has "
              ++ pretty (length (columns f)) ++ " elements, new values have "
              ++ pretty (length names) ++ " elements").

Definition daily_columns : list string :=
  ["CITY_ID"; "CITY_NAME"; "COUNTRY_CODE"; "DATE"; "CLIMATE_ZONE";
   "HEMISPHERE";
   "HOURLY_READINGS"; "AVG_TEMPERATURE"; "MIN_TEMPERATURE";
   "MAX_TEMPERATURE";
   "TEMPERATURE_VARIABILITY"; "AVG_HUMIDITY"; "MIN_HUMIDITY"; "MAX_HUMIDITY";
   "AVG_WIND_SPEED"; "MAX_WIND_SPEED"; "AVG_PRESSURE"; "AVG_COMFORT_INDEX";
   "DOMINANT_WEATHER"; "WEATHER_CHANGES_COUNT"].

Fixpoint index_of (name : string) (l : list string) : option nat :=
  match l with
  | [] => None
  | x :: l' => if String.eqb x name then Some 0%nat else S <$> index_of name l'
  end.

(** [frame[name]] *)
Definition get_column (f : frame string) (name : string) : exc (list cell) :=
  match index_of name (columns f) with
  | None => Raise ("KeyError: " ++ name)
  | Some i =>
      mapM (fun row : list cell =>
              match row !! i with
              | Some c => Return c
              | None => Raise ("KeyError: " ++ name)
              end) (rows f)
  end.

(** [frame[name] = cells], for a label the frame does not have yet. *)
Definition add_column (f : frame string) (name : string) (cells : list cell)
  : frame string :=
  {| columns := (columns f ++ [name])%list;
     rows := zip_with (fun row c => (row ++ [c])%list) (rows f) cells |}.

Definition cell_isna (c : cell) : bool :=
  match c with
  | CInt n => isna n
  | CFloat x | CRoot x => isna x
  | CText s => isna s
  | CDate d => isna d
  end.

(** [c < q] for a threshold [q >= 0]; a root is compared by its square. *)
Definition cell_lt (c : cell) (q : Q) : exc bool :=
  match c with
  | CInt n => Return (inject_Z <$> n <? lit q)%num
  | CFloat x => Return (x <? lit q)%num
  | CRoot v => Return (v <? lit (q * q))%num
  | CText _ | CDate _ => Raise "TypeError: '<' not supported"
  end.

Definition cell_ge (c : cell) (q : Q) : exc bool :=
  match c with
  | CInt n => Return (inject_Z <$> n >=? lit q)%num
  | CFloat x => Return (x >=? lit q)%num
  | CRoot v => Return (v >=? lit (q * q))%num
  | CText _ | CDate _ => Raise "TypeError: '>=' not supported"
  end.

Definition cell_sub (c1 c2 : cell) : exc cell :=
  match c1, c2 with
  | CFloat x, CFloat y => Return (CFloat (x - y)%num)
  | CInt (Some m), CInt (Some n) => Return (CInt (Some (m - n)%Z))
  | _, _ => Raise "TypeError: unsupported operand type(s) for -"
  end.

Definition categorize_stability (variability : cell) : exc cell :=
  if cell_isna variability then Return (CText (Some "UNKNOWN"))
  else
    b2 ← cell_lt variability 2;
    if b2 : bool then Return (CText (Some "STABLE"))
    else
      b5 ← cell_lt variability 5;
      if b5 : bool then Return (CText (Some "MODERATE"))
      else Return (CText (Some "VARIABLE")).

Definition categorize_daily_comfort (comfort : cell) : exc cell :=
  if cell_isna comfort then Return (CText (Some "UNKNOWN"))
  else
    b70 ← cell_ge comfort 70;
    if b70 : bool then Return (CText (Some "COMFORTABLE"))
    else
      b50 ← cell_ge comfort 50;
      if b50 : bool then Return (CText (Some "MODERATE"))
      else Return (CText (Some "UNCOMFORTABLE")).

(** The [try] block of [create_daily_aggregations] up to the write. *)
Definition daily_frame (df_silver : list SilverRow) : exc (frame string) :=
  daily_agg ← groupby_agg df_silver;
  daily_agg ← set_columns daily_agg daily_columns;
  hi ← get_column daily_agg "MAX_TEMPERATURE";
  lo ← get_column daily_agg "MIN_TEMPERATURE";
  range ← mapM (fun p : cell * cell => cell_sub p.1 p.2) (zip hi lo);
  let daily_agg := add_column daily_agg "DAILY_TEMP_RANGE" range in
  variability ← get_column daily_agg "TEMPERATURE_VARIABILITY";
  stability ← mapM categorize_stability variability;
  let daily_agg := add_column daily_agg "TEMPERATURE_STABILITY" stability in
  comfort ← get_column daily_agg "AVG_COMFORT_INDEX";
  category ← mapM categorize_daily_comfort comfort;
  mret (add_column daily_agg "COMFORT_CATEGORY" category).

(** What the aggregation leaves behind (it returns nothing): the frame
    handed to the writer, if any, and the line it logs. *)
Record DailyOutcome : Type := {
  to_daily : option (frame string);
  log_level : string;
  log_message : string
}.

Definition create_daily_aggregations
    (pd_writer : frame string -> exc (bool * Z))
    (df_silver : list SilverRow) : DailyOutcome :=
  match daily_frame df_silver with
  | Raise e =>
      {| to_daily := None; log_level := "ERROR";
         log_message := "Daily aggregation failed: " ++ e |}
  | Return daily_agg =>
      match pd_writer daily_agg with
      | Raise e =>
          {| to_daily := Some daily_agg; log_level := "ERROR";
             log_message := "Daily aggregation failed: " ++ e |}
      | Return (true, _) =>
          {| to_daily := Some daily_agg; log_level := "INFO";
             log_message := "Created " ++ pretty (length (rows daily_agg))
                            ++ " daily aggregated records" |}
      | Return (false, _) =>
          {| to_daily := Some daily_agg; log_level := "ERROR";
             log_message := "Failed to create daily aggregations" |}
      end
  end.

(** What a row adds to the count of non-null temperatures. *)
Definition has_temperature (r : SilverRow) : nat :=
  match TEMPERATURE (clean r) with
  | Some _ => 1%nat
  | None => 0%nat
  end.

(** The reading count of a row of the aggregated frame: its seventh cell,
    the one the flat labels call HOURLY_READINGS. *)
Definition reading_count (row : list cell) : Z :=
  match row !! 6%nat with
  | Some (CInt (Some n)) => n
  | _ => 0%Z
  end.

Definition total_readings {L : Type} (f : frame L) : Z :=
  foldr Z.add 0%Z (reading_count <$> rows f).

(** *** [transform_data] *)

Record Store : Type := {
  connect : exc unit;
  create_silver_tables : exc unit;
  read_sql : exc (list RawObservation);
  (** [(success, nrows)] of the two [pd_writer] calls *)
  write_silver : list SilverRow -> exc (bool * Z);
  write_daily : frame string -> exc (bool * Z);
  (** [conn.close()], called inside the [try] *)
  close : exc unit
}.

Record Outcome : Type := {
  result : gmap string pyval;
  to_silver : option (list SilverRow);
  daily : option DailyOutcome
}.

Definition valid_rows (df_bronze : list RawObservation)
  : list (RawObservation * string) :=
  let df_clean := fill_missing <$> df_bronze in
  let flagged := (fun r => (r, quality_flag r)) <$> df_clean in
  filter (fun rf => rf.2 = "VALID") flagged.

(** The feature columns of [df_valid]; [pd.to_datetime] raises on text
    that is no timestamp. *)
Definition enrich_all (valid : list (RawObservation * string))
  : exc (list SilverRow) :=
  mapM (fun rf : RawObservation * string =>
          ts ← to_datetime (TIMESTAMP rf.1);
          mret (enrich rf.1 rf.2 ts)) valid.

Definition failed (e : string) : gmap string pyval :=
  {[ "status" := VStr "FAILED"; "error" := VStr e ]}.

Definition transform_data (s : Store) : Outcome :=
  match (_ ← connect s; _ ← create_silver_tables s; read_sql s) with
  | Raise e => {| result := failed e; to_silver := None; daily := None |}
  | Return [] =>
      {| result :=
           match close s with
           | Raise e => failed e
           | Return _ =>
               {[ "status" := VStr "WARNING";
                  "message" := VStr "No data to transform" ]}
           end;
         to_silver := None; daily := None |}
  | Return df_bronze =>
      match enrich_all (valid_rows df_bronze) with
      | Raise e => {| result := failed e; to_silver := None; daily := None |}
      | Return df_valid =>
          match write_silver s df_valid with
          | Raise e =>
              {| result := failed e; to_silver := Some df_valid;
                 daily := None |}
          | Return (true, nrows) =>
              {| result :=
                   match close s with
                   | Raise e => failed e
                   | Return _ =>
                       {[ "status" := VStr "SUCCESS";
                          "records_transformed" :=
                            VInt (Z.of_nat (length df_valid));
                          "silver_rows_written" := VInt nrows ]}
                   end;
                 to_silver := Some df_valid;
                 daily := Some (create_daily_aggregations (write_daily s)
                                  df_valid) |}
          | Return (false, _) =>
              {| result :=
                   match close s with
                   | Raise e => failed e
                   | Return _ => failed "Silver write failed"
                   end;
                 to_silver := Some df_valid; daily := None |}
          end
      end
  end.

(** The enriched batch of a run: what was handed to the writer. *)
Definition enriched (s : Store) : list SilverRow :=
  default [] (to_silver (transform_data s)).

End Checkpoint.

(** ** The scores as the specification words them *)
Module SpecWords.
Local Open Scope Q_scope.

Definition clamp (x lo hi : Q) : Q :=
  if Qle_bool x lo then lo else if Qle_bool hi x then hi else x.

(** [clamp((100 - 5|temp-21|) - 0.3|humidity-50| - 2|windSpeed-5|, 0, 100)],
    the wind term being 0 when the wind speed is absent. *)
Definition wind_term (wind_speed : option Q) : Q :=
  match wind_speed with
  | Some w => 2 * Qabs (w - 5)
  | None => 0
  end.

Definition comfort (temp humidity : Q) (wind_speed : option Q) : Q :=
  clamp ((100 - 5 * Qabs (temp - 21)) - 0.3 * Qabs (humidity - 50)
         - wind_term wind_speed) 0 100.



(** "temperature is present and lies outside [-50, 60]" *)
Definition extreme (temperature : option Q) : Prop :=
  exists t : Q, temperature = Some t /\ (t < -50 \/ 60 < t).

End SpecWords.

(** ** Concrete runs *)
Module Scenario.
Import Py.

Definition noon : Timestamp :=
  {| ts_date := {| year := 2024; month := 1; day := 1 |};
     ts_hour := 12; ts_minute := 0; ts_second := 0 |}.

(** London at noon: the specification's scenario, with the temperature,
    the wind speed, the latitude and the timestamp left open. *)
Definition simple_obs (temp wind lat : num) (ts : ts_cell)
  : Simple.RawObservation :=
  {| Simple.city_id := Some "2643743"; Simple.city_name := Some "London";
     Simple.country_code := Some "GB";
     Simple.latitude := lat; Simple.longitude := Some (-0.1278)%Q;
     Simple.timestamp := ts;
     Simple.weather_main := Some "Clouds";
     Simple.weather_description := Some "overcast clouds";
     Simple.temperature := temp; Simple.feels_like := temp;
     Simple.temp_min := temp; Simple.temp_max := temp;
     Simple.pressure := Some 1013%Q; Simple.humidity := Some 50%Q;
     Simple.wind_speed := wind; Simple.wind_deg := None;
     Simple.clouds := Some 50%Q;
     Simple.ingestion_date := Some {| year := 2024; month := 1; day := 1 |} |}.

(** A store whose calls all succeed; the writer reports the rows it got. *)
Definition simple_store (df_bronze : list Simple.RawObservation)
  : Simple.Store :=
  {| Simple.connect := Return tt;
     Simple.create_silver_tables := Return tt;
     Simple.read_sql := Return df_bronze;
     Simple.write_pandas := fun df => Return (true, Z.of_nat (length df));
     Simple.close := Return tt |}.


Definition checkpoint_obs (temp wind lat : num) (ts : ts_cell)
  : Checkpoint.RawObservation :=
  {| Checkpoint.CITY_ID := Some 2643743%Z;
     Checkpoint.CITY_NAME := Some "London";
     Checkpoint.COUNTRY_CODE := Some "GB";
     Checkpoint.LATITUDE := lat; Checkpoint.LONGITUDE := Some (-0.1278)%Q;
     Checkpoint.TIMESTAMP := ts;
     Checkpoint.WEATHER_MAIN := Some "Clouds";
     Checkpoint.WEATHER_DESCRIPTION := Some "overcast clouds";
     Checkpoint.TEMPERATURE := temp; Checkpoint.FEELS_LIKE := temp;
     Checkpoint.TEMP_MIN := temp; Checkpoint.TEMP_MAX := temp;
     Checkpoint.PRESSURE := Some 1013%Q; Checkpoint.HUMIDITY := Some 50%Q;
     Checkpoint.WIND_SPEED := wind; Checkpoint.WIND_DEG := None;
     Checkpoint.CLOUD_COVERAGE := Some 50%Q;
     Checkpoint.INGESTION_DATE :=
       Some {| year := 2024; month := 1; day := 1 |} |}.

Definition daily_writer (f : Checkpoint.frame string) : exc (bool * Z) :=
  Return (true, Z.of_nat (length (Checkpoint.rows f))).

Definition checkpoint_store (df_bronze : list Checkpoint.RawObservation)
  : Checkpoint.Store :=
  {| Checkpoint.connect := Return tt;
     Checkpoint.create_silver_tables := Return tt;
     Checkpoint.read_sql := Return df_bronze;
     Checkpoint.write_silver :=
       fun df => Return (true, Z.of_nat (length df));
     Checkpoint.write_daily := daily_writer;
     Checkpoint.close := Return tt |}.

(** Three readings, one of them at -60 degrees. *)
Definition simple_batch : list Simple.RawObservation :=
  [simple_obs (Some 21%Q) (Some 5%Q) (Some 51.5%Q) (TsValue noon);
   simple_obs (Some (-60)%Q) (Some 5%Q) (Some 51.5%Q) (TsValue noon);
   simple_obs (Some 10%Q) None (Some 51.5%Q) TsNull].

Definition checkpoint_batch : list Checkpoint.RawObservation :=
  [checkpoint_obs (Some 21%Q) (Some 5%Q) (Some 51.5%Q) (TsValue noon);
   checkpoint_obs (Some (-60)%Q) (Some 5%Q) (Some 51.5%Q) (TsValue noon);
   checkpoint_obs (Some 10%Q) None (Some 51.5%Q) TsNull].


(** One valid reading whose temperature is missing. *)
Definition checkpoint_no_temperature : list Checkpoint.RawObservation :=
  [checkpoint_obs None (Some 5%Q) (Some 51.5%Q) (TsValue noon)].

(** One valid reading whose latitude is missing. *)
Definition checkpoint_no_latitude : list Checkpoint.RawObservation :=
  [checkpoint_obs (Some 21%Q) (Some 5%Q) None (TsValue noon)].

End Scenario.

(** ** The stages of a run, named *)
Module Stages.
Import Py.

(** The calls of [transform_data] up to the fetched batch. *)
Definition simple_fetch (s : Simple.Store) : exc (list Simple.RawObservation) :=
  _ ← Simple.connect s; _ ← Simple.create_silver_tables s; Simple.read_sql s.

Definition checkpoint_fetch (s : Checkpoint.Store)
  : exc (list Checkpoint.RawObservation) :=
  _ ← Checkpoint.connect s; _ ← Checkpoint.create_silver_tables s;
  Checkpoint.read_sql s.

(** The status entry of a result dictionary. *)
Definition status (result : gmap string pyval) : option pyval :=
  result !! "status".

(** The label sets of the enriched columns. *)
Definition seasons : list string := ["WINTER"; "SPRING"; "SUMMER"; "AUTUMN"].
Definition hemispheres : list string :=
  ["NORTHERN"; "SOUTHERN"; "EQUATORIAL"].
Definition climate_zones : list string :=
  ["TROPICAL"; "SUBTROPICAL"; "TEMPERATE"; "POLAR"].
Definition temperature_categories : list string :=
  ["FREEZING"; "COLD"; "COOL"; "WARM"; "HOT"].
Definition humidity_categories : list string :=
  ["DRY"; "COMFORTABLE"; "HUMID"; "VERY_HUMID"].
Definition comfort_levels : list string :=
  ["VERY_COMFORTABLE"; "COMFORTABLE"; "MODERATE"; "UNCOMFORTABLE";
   "VERY_UNCOMFORTABLE"].
Definition severity_levels : list string :=
  ["MILD"; "MODERATE"; "SEVERE"; "EXTREME"].

End Stages.

(** ** Ingestion: [weather_ingestion.py] *)
Module Ingestion.
Import Py.

(** A monitored city, as [get_cities_from_snowflake] returns it. *)
Record City : Type := { city : string; country : string; lat : Q; lon : Q }.

(** What [ingest_data] consults.  The city list is always there: the
    lookup falls back to the default cities.  [fetch_weather_data] catches
    every exception and returns [None] then.  A call made for the i-th city
    may answer differently from the call for another one, so the calls of
    the loop take the position too. *)
Record Service (Reading : Type) : Type := {
  get_cities_from_snowflake : list City;
  api_test : exc unit;
  connect : exc unit;
  create_bronze_table : exc unit;
  fetch_weather_data : nat -> City -> option Reading;
  insert_into_snowflake : nat -> Reading -> exc unit;
  close : exc unit
}.
Arguments get_cities_from_snowflake {Reading} _.
Arguments api_test {Reading} _.
Arguments connect {Reading} _.
Arguments create_bronze_table {Reading} _.
Arguments fetch_weather_data {Reading} _ _ _.
Arguments insert_into_snowflake {Reading} _ _ _.
Arguments close {Reading} _.

(** The body of the loop: the two counters after one city. *)
Definition ingest_city {Reading : Type} (sv : Service Reading)
    (counters : Z * Z) (call : nat * City) : Z * Z :=
  let '(successful_inserts, failed_inserts) := counters in
  match fetch_weather_data sv call.1 call.2 with
  | None => (successful_inserts, failed_inserts + 1)%Z
  | Some weather_data =>
      match insert_into_snowflake sv call.1 weather_data with
      | Return _ => (successful_inserts + 1, failed_inserts)%Z
      | Raise _ => (successful_inserts, failed_inserts + 1)%Z
      end
  end.

Definition failed (e : string) : gmap string pyval :=
  {[ "status" := VStr "FAILED"; "error" := VStr e ]}.

Definition ingest_data {Reading : Type} (sv : Service Reading)
  : gmap string pyval :=
  let cities := get_cities_from_snowflake sv in
  match (_ ← api_test sv; _ ← connect sv; create_bronze_table sv) with
  | Raise e => failed e
  | Return _ =>
      let '(successful_inserts, failed_inserts) :=
        foldl (ingest_city sv) (0, 0)%Z (imap pair cities) in
      match close sv with
      | Raise e => failed e
      | Return _ =>
          {[ "status" := VStr "SUCCESS";
             "cities_processed" := VInt (Z.of_nat (length cities));
             "successful_inserts" := VInt successful_inserts;
             "failed_inserts" := VInt failed_inserts ]}
      end
  end.

(** The cities whose reading reached the table. *)
Definition stored {Reading : Type} (sv : Service Reading)
    (call : nat * City) : bool :=
  match fetch_weather_data sv call.1 call.2 with
  | Some weather_data =>
      match insert_into_snowflake sv call.1 weather_data with
      | Return _ => true
      | Raise _ => false
      end
  | None => false
  end.

End Ingestion.

(** ** Ingestion: [weather_ingestion-checkpoint.py] *)
Module IngestionCheckpoint.
Import Py.

Record City : Type := { name : string; country : string; lat : Q; lon : Q }.

(** Values of the result dictionary, which also lists city names. *)
Inductive value : Type :=
| Str (s : string)
| Int (n : Z)
| Names (l : list string).

(** [fetch_current_weather] returns [None] on a request error, a
    [KeyError] or a [ValueError]; any other exception leaves it. *)
Record Service (Record_ : Type) : Type := {
  cities : list City;
  fetch_current_weather : nat -> City -> exc (option Record_);
  connect : exc unit;
  create_bronze_table : exc unit;
  (** [(success, nrows)] of [write_pandas] *)
  write_pandas : list Record_ -> exc (bool * Z);
  close : exc unit
}.
Arguments cities {Record_} _.
Arguments fetch_current_weather {Record_} _ _ _.
Arguments connect {Record_} _.
Arguments create_bronze_table {Record_} _.
Arguments write_pandas {Record_} _ _.
Arguments close {Record_} _.

(** The fetch loop: [all_records], [successful] and [failed]. *)
Fixpoint fetch_all {Record_ : Type} (sv : Service Record_)
    (calls : list (nat * City)) (state : list Record_ * Z * Z)
  : exc (list Record_ * Z * Z) :=
  match calls with
  | [] => Return state
  | call :: rest =>
      let '(all_records, successful, failed) := state in
      record ← fetch_current_weather sv call.1 call.2;
      fetch_all sv rest
        match record with
        | Some r => ((all_records ++ [r])%list, (successful + 1)%Z, failed)
        | None => (all_records, successful, (failed + 1)%Z)
        end
  end.

Definition failed (e : string) : gmap string value :=
  {[ "status" := Str "FAILED"; "error" := Str e ]}.

Definition ingest_weather_data {Record_ : Type} (sv : Service Record_)
  : exc (gmap string value) :=
  state ← fetch_all sv (imap pair (cities sv)) ([], 0, 0)%Z;
  let '(all_records, successful, failed_cities) := state in
  match all_records with
  | [] => Return (failed "No data fetched")
  | _ :: _ =>
      match (_ ← connect sv; _ ← create_bronze_table sv;
             written ← write_pandas sv all_records;
             _ ← close sv; mret written) with
      | Raise e => Return (failed e)
      | Return (true, nrows) =>
          Return
            {[ "status" := Str "SUCCESS";
               "records_ingested" := Int (Z.of_nat (length all_records));
               "successful_cities" := Int successful;
               "failed_cities" := Int failed_cities;
               "cities" := Names (name <$> take 5 (cities sv)) ]}
      | Return (false, _) => Return (failed "Snowflake write failed")
      end
  end.

(** The answers of the fetch calls, city by city. *)
Definition fetched {Record_ : Type} (sv : Service Record_)
  : exc (list (option Record_)) :=
  mapM (fun call : nat * City => fetch_current_weather sv call.1 call.2)
    (imap pair (cities sv)).

End IngestionCheckpoint.

(** ** The pipeline: [main-checkpoint.py] *)
Module Pipeline.
Import Py.

(** The three phases of a run; the analytics phase is a call that returns
    its result or raises. *)
Record Phases (Record_ Insights : Type) : Type := {
  ingestor : IngestionCheckpoint.Service Record_;
  transformer : Checkpoint.Store;
  generate_insights : exc Insights
}.
Arguments ingestor {Record_ Insights} _.
Arguments transformer {Record_ Insights} _.
Arguments generate_insights {Record_ Insights} _.

(** The dictionary [run] returns, without the duration read off the
    clock. *)
Record Report (Insights : Type) : Type := {
  status : string;
  records_processed : Z;
  ingestion : gmap string IngestionCheckpoint.value;
  transformation : gmap string pyval;
  analytics : Insights
}.
Arguments status {Insights} _.
Arguments records_processed {Insights} _.
Arguments ingestion {Insights} _.
Arguments transformation {Insights} _.
Arguments analytics {Insights} _.

(** The row [log_pipeline_result] is called with; the call itself catches
    whatever it raises. *)
Record LogEntry : Type := {
  log_status : string;
  log_records : Z;
  log_error : option string
}.

(** [d.get(key, 0)] as an operand of [+]: an integer, or a [TypeError]. *)
Definition get_count {V : Type} (as_int : V -> option Z)
    (d : gmap string V) (key : string) : exc Z :=
  match d !! key with
  | None => Return 0%Z
  | Some v =>
      match as_int v with
      | Some n => Return n
      | None => Raise "unsupported operand type(s) for +"
      end
  end.

Definition ingested_int (v : IngestionCheckpoint.value) : option Z :=
  match v with
  | IngestionCheckpoint.Int n => Some n
  | _ => None
  end.

Definition transformed_int (v : pyval) : option Z :=
  match v with
  | VInt n => Some n
  | VStr _ => None
  end.

Definition run {Record_ Insights : Type} (p : Phases Record_ Insights)
  : LogEntry * exc (Report Insights) :=
  match
    (ingestion_result ←
       IngestionCheckpoint.ingest_weather_data (ingestor p);
     let transformation_result :=
       Checkpoint.result (Checkpoint.transform_data (transformer p)) in
     analytics_result ← generate_insights p;
     ingested ← get_count ingested_int ingestion_result "records_ingested";
     transformed ←
       get_count transformed_int transformation_result "records_transformed";
     mret {| status := "SUCCESS";
             records_processed := (ingested + transformed)%Z;
             ingestion := ingestion_result;
             transformation := transformation_result;
             analytics := analytics_result |})
  with
  | Return report =>
      ({| log_status := "SUCCESS";
          log_records := records_processed report;
          log_error := None |}, Return report)
  | Raise e =>
      ({| log_status := "FAILED"; log_records := 0; log_error := Some e |},
       Raise e)
  end.

End Pipeline.

(** ** Reading the comparisons back as propositions *)
Section NumFacts.
Import Py.

Lemma Qltb_lt (a b : Q) : Qltb a b = true <-> (a < b)%Q.
Proof.
  unfold Qltb. rewrite negb_true_iff.
  split; intros H.
  - apply Qnot_le_lt. intros Hle. apply Qle_bool_iff in Hle. congruence.
  - apply not_true_is_false. intros Hle. apply Qle_bool_iff in Hle.
    apply (Qlt_not_le _ _ H Hle).
Qed.

Lemma Qltb_ge (a b : Q) : Qltb a b = false <-> (b <= a)%Q.
Proof.
  unfold Qltb. rewrite negb_false_iff. apply Qle_bool_iff.
Qed.

Lemma Qleb_gt (a b : Q) : Qle_bool a b = false <-> (b < a)%Q.
Proof.
  rewrite <- Qltb_lt. unfold Qltb. destruct (Qle_bool a b); simpl; intuition congruence.
Qed.

Lemma Qltb_spec (a b : Q) : reflect (a < b)%Q (Qltb a b).
Proof.
  destruct (Qltb a b) eqn:E; constructor.
  - now apply Qltb_lt.
  - apply Qltb_ge in E. now apply Qle_not_lt.
Qed.

Lemma Qleb_spec (a b : Q) : reflect (a <= b)%Q (Qle_bool a b).
Proof.
  destruct (Qle_bool a b) eqn:E; constructor.
  - now apply Qle_bool_iff.
  - apply Qleb_gt in E. now apply Qlt_not_le.
Qed.

Lemma max_Some (a b : Q) :
  max (Some a) (Some b) = Some (if Qltb a b then b else a).
Proof. unfold max, gt, lt. now destruct (Qltb a b). Qed.

Lemma min_Some (a b : Q) :
  min (Some a) (Some b) = Some (if Qltb b a then b else a).
Proof. unfold min, lt. now destruct (Qltb b a). Qed.

Lemma sub_Some (a b : Q) : sub (Some a) (Some b) = Some (a - b)%Q.
Proof. reflexivity. Qed.

Lemma add_Some (a b : Q) : add (Some a) (Some b) = Some (a + b)%Q.
Proof. reflexivity. Qed.

Lemma mul_Some (a b : Q) : mul (Some a) (Some b) = Some (a * b)%Q.
Proof. reflexivity. Qed.

Lemma div_Some (a b : Q) : div (Some a) (Some b) = Some (a / b)%Q.
Proof. reflexivity. Qed.

Lemma abs_Some (a : Q) : abs (Some a) = Some (Qabs a).
Proof. reflexivity. Qed.

Lemma lit_Some (a : Q) : lit a = Some a.
Proof. reflexivity. Qed.

End NumFacts.

Create Rewrite HintDb pynum.
#[global] Hint Rewrite lit_Some abs_Some sub_Some add_Some mul_Some div_Some
  max_Some min_Some : pynum.

(** Case analysis on every rational comparison and absolute value in the
    goal, leaving linear arithmetic. *)
Ltac q_cases :=
  repeat match goal with
  | |- context [Py.Qltb ?a ?b] => destruct (Qltb_spec a b)
  | |- context [Qle_bool ?a ?b] => destruct (Qleb_spec a b)
  | H : context [Py.Qltb ?a ?b] |- _ => destruct (Qltb_spec a b)
  | H : context [Qle_bool ?a ?b] |- _ => destruct (Qleb_spec a b)
  end.

Ltac q_abs :=
  repeat match goal with
  | |- context [Qabs ?x] =>
      let a := fresh "a" in let Ha := fresh "Ha" in
      let Hb := fresh "Hb" in
      pose proof (Qabs_nonneg x) as Ha;
      assert (Hb : (Qabs x == x \/ Qabs x == - x)%Q)
        by (apply Qabs_case; intros; [left | right]; reflexivity);
      set (a := Qabs x) in *; clearbody a
  end.

(** Division by a constant, as a product. *)
Ltac q_div :=
  unfold Qdiv in *;
  repeat match goal with
  | |- context [Qinv ?c] =>
      let v := eval vm_compute in (Qinv c) in change (Qinv c) with v
  end.

(** Unfolds the comparisons on cells whose content is known. *)
Ltac num_simpl :=
  cbn [Py.isna Py.lt Py.le Py.gt Py.ge Py.abs option_map Py.lit orb negb
       Py.in_list];
  autorewrite with pynum.

(** ** The comfort index (both scripts define the same function) *)

Lemma comfort_index_None (temp humidity wind_speed : Py.num) :
  Simple.calculate_comfort_index temp humidity wind_speed = None
  <-> temp = None \/ humidity = None.
Proof.
  unfold Simple.calculate_comfort_index.
  destruct temp as [t|], humidity as [h|]; cbn [Py.isna orb];
    try (split; [auto | reflexivity]).
  split; [| intros [?|?]; discriminate].
  destruct wind_speed as [w|]; num_simpl; discriminate.
Qed.

Lemma comfort_index_Some (t h : Q) (wind_speed : Py.num) :
  exists c : Q,
    Simple.calculate_comfort_index (Some t) (Some h) wind_speed = Some c
    /\ (c == SpecWords.comfort t h wind_speed)%Q
    /\ (0 <= c <= 100)%Q.
Proof.
  unfold Simple.calculate_comfort_index, SpecWords.comfort, SpecWords.clamp,
    SpecWords.wind_term.
  destruct wind_speed as [w|]; num_simpl; q_abs; q_cases;
    (eexists; split; [reflexivity | split; lra]).
Qed.

Lemma checkpoint_comfort_index_eq (temp humidity wind_speed : Py.num) :
  Checkpoint.calculate_comfort_index temp humidity wind_speed
  = Simple.calculate_comfort_index temp humidity wind_speed.
Proof. reflexivity. Qed.

(** Rows of a run are enriched rows of the fetched batch. *)
Lemma simple_enriched_inv (s : Simple.Store) (row : Simple.SilverRow) :
  row ∈ Simple.enriched s ->
  exists (df_bronze : list Simple.RawObservation) (r : Simple.RawObservation),
    Simple.read_sql s = Py.Return df_bronze
    /\ r ∈ df_bronze
    /\ Simple.quality_flag (Simple.fill_missing r) = "VALID"
    /\ row = Simple.enrich (Simple.fill_missing r) "VALID".
Proof.
  unfold Simple.enriched, Simple.transform_data.
  destruct (Simple.connect s) as [e|[]]; cbn; [intros H; inversion H |].
  destruct (Simple.create_silver_tables s) as [e|[]]; cbn;
    [intros H; inversion H |].
  destruct (Simple.read_sql s) as [e|df_bronze]; cbn; [intros H; inversion H |].
  destruct df_bronze as [|r0 df]; [intros H; inversion H |].
  destruct (Simple.valid_rows (r0 :: df)) as [|v vs] eqn:Hv;
    [intros H; inversion H |].
  intros Hin.
  change (row ∈ (fun rf : Simple.RawObservation * string =>
                   Simple.enrich rf.1 rf.2) <$> (v :: vs)) in Hin.
  rewrite <- Hv in Hin. clear Hv.
  apply list_elem_of_fmap in Hin as [[r flag] [-> Hin]].
  unfold Simple.valid_rows in Hin.
  apply list_elem_of_filter in Hin as [Hflag Hin]. cbn in Hflag. subst flag.
  apply list_elem_of_fmap in Hin as [r' [Heq Hin]].
  apply list_elem_of_fmap in Hin as [r0' [-> Hin]].
  injection Heq as -> Hf.
  exists (r0 :: df), r0'. repeat split; auto.
Qed.

(** C1. For every observation the comfort index is null exactly when
    temperature or humidity is absent; with both present it equals the
    single outer clamp
    clamp((100 - 5|temp-21|) - 0.3|humidity-50| - 2|windSpeed-5|, 0, 100),
    the wind term being 0 for an absent wind speed, and lies in [0, 100].
    Stated for the function and for every row a run enriches. *)
Theorem comfort_index_spec :
  (forall temp humidity wind_speed : Py.num,
     Simple.calculate_comfort_index temp humidity wind_speed = None
     <-> temp = None \/ humidity = None)
  /\ (forall (t h : Q) (wind_speed : Py.num),
        exists c : Q,
          Simple.calculate_comfort_index (Some t) (Some h) wind_speed = Some c
          /\ (c == SpecWords.comfort t h wind_speed)%Q
          /\ (0 <= c <= 100)%Q)
  /\ (forall s : Simple.Store,
        Forall (fun row =>
          Simple.COMFORT_INDEX row
          = Simple.calculate_comfort_index (Simple.TEMPERATURE row)
              (Simple.HUMIDITY row) (Simple.WIND_SPEED row))
          (Simple.enriched s)).
Proof.
  split; [exact comfort_index_None |].
  split; [exact comfort_index_Some |].
  intros s. apply Forall_forall. intros row Hin.
  apply simple_enriched_inv in Hin as (df & r & _ & _ & _ & ->).
  reflexivity.
Qed.

(** ** The quality gate *)

Lemma extreme_mask (t : Py.num) :
  (t <? Py.lit (-50))%num || (t >? Py.lit 60)%num = true
  <-> SpecWords.extreme t.
Proof.
  unfold SpecWords.extreme. destruct t as [q|]; num_simpl.
  - rewrite orb_true_iff, !Qltb_lt. split.
    + intros H. exists q. split; [reflexivity | exact H].
    + intros (q' & [= <-] & H). exact H.
  - split; [discriminate | intros (q' & [=] & _)].
Qed.

Lemma simple_quality_flag_spec (r : Simple.RawObservation) :
  (Simple.quality_flag r = "EXTREME_TEMPERATURE"
   <-> SpecWords.extreme (Simple.temperature r))
  /\ (Simple.quality_flag r = "VALID"
      <-> ~ SpecWords.extreme (Simple.temperature r)).
Proof.
  unfold Simple.quality_flag. rewrite <- extreme_mask.
  destruct (_ || _); split; split; try done.
Qed.

Lemma checkpoint_quality_flag_spec (r : Checkpoint.RawObservation) :
  (Checkpoint.quality_flag r = "EXTREME_TEMPERATURE"
   <-> SpecWords.extreme (Checkpoint.TEMPERATURE r))
  /\ (Checkpoint.quality_flag r = "VALID"
      <-> ~ SpecWords.extreme (Checkpoint.TEMPERATURE r)).
Proof.
  unfold Checkpoint.quality_flag. rewrite <- extreme_mask.
  destruct (_ || _); split; split; try done.
Qed.

(** [mapM] over computations that all return. *)
Lemma mapM_Return_inv {A B : Type} (f : A -> Py.exc B) (l : list A)
    (k : list B) :
  mapM f l = Py.Return k -> Forall2 (fun x y => f x = Py.Return y) l k.
Proof.
  revert k. induction l as [|x l IH]; intros k; cbn.
  - intros [= <-]. constructor.
  - destruct (f x) as [e|y] eqn:Hx; cbn; [discriminate |].
    destruct (mapM f l) as [e|k'] eqn:Hl; cbn; [discriminate |].
    intros [= <-]. constructor; [exact Hx | apply IH; reflexivity].
Qed.

Lemma mapM_Return {A B : Type} (f : A -> Py.exc B) (g : A -> B)
    (l : list A) :
  (forall x, x ∈ l -> f x = Py.Return (g x)) ->
  mapM f l = Py.Return (g <$> l).
Proof.
  induction l as [|x l IH]; intros H; cbn; [reflexivity |].
  rewrite (H x) by apply list_elem_of_here. cbn.
  rewrite IH by (intros y Hy; apply H; now apply list_elem_of_further).
  reflexivity.
Qed.

(** Rows of a run are enriched rows of the fetched batch. *)
Lemma checkpoint_enriched_inv (s : Checkpoint.Store)
    (row : Checkpoint.SilverRow) :
  row ∈ Checkpoint.enriched s ->
  exists (df_bronze : list Checkpoint.RawObservation)
         (r : Checkpoint.RawObservation) (ts : option Py.Timestamp),
    Checkpoint.read_sql s = Py.Return df_bronze
    /\ r ∈ df_bronze
    /\ Checkpoint.quality_flag (Checkpoint.fill_missing r) = "VALID"
    /\ Py.to_datetime (Checkpoint.TIMESTAMP r) = Py.Return ts
    /\ row = Checkpoint.enrich (Checkpoint.fill_missing r) "VALID" ts.
Proof.
  unfold Checkpoint.enriched, Checkpoint.transform_data.
  destruct (Checkpoint.connect s) as [e|[]]; cbn; [intros H; inversion H |].
  destruct (Checkpoint.create_silver_tables s) as [e|[]]; cbn;
    [intros H; inversion H |].
  destruct (Checkpoint.read_sql s) as [e|df_bronze]; cbn;
    [intros H; inversion H |].
  destruct df_bronze as [|r0 df]; [intros H; inversion H |].
  destruct (Checkpoint.enrich_all _) as [e|df_valid] eqn:Hall;
    [intros H; inversion H |].
  intros Hin.
  assert (Hrow : row ∈ df_valid).
  { destruct (Checkpoint.write_silver s df_valid) as [e|[[] nrows]];
      exact Hin. }
  clear Hin. apply mapM_Return_inv in Hall.
  apply list_elem_of_lookup in Hrow as [i Hi].
  destruct (Forall2_lookup_r _ _ _ _ _ Hall Hi) as ([r flag] & Hr & Hf).
  apply list_elem_of_lookup_2 in Hr. unfold Checkpoint.valid_rows in Hr.
  apply list_elem_of_filter in Hr as [Hflag Hr]. cbn in Hflag. subst flag.
  apply list_elem_of_fmap in Hr as [r' [Heq Hr]].
  apply list_elem_of_fmap in Hr as [r1 [-> Hr]].
  injection Heq as -> Hq.
  cbn in Hf. destruct (Py.to_datetime _) as [e|ts] eqn:Hts; [discriminate |].
  cbn in Hf. injection Hf as <-.
  exists (r0 :: df), r1, ts. repeat split; auto.
Qed.

(** Every member of a group is a row of the frame that was grouped. *)
Lemma groupby_members (df : list Checkpoint.SilverRow)
    (g : Checkpoint.GroupKey * list Checkpoint.SilverRow)
    (m : Checkpoint.SilverRow) :
  g ∈ Checkpoint.groupby df -> m ∈ g.2 -> m ∈ df.
Proof.
  unfold Checkpoint.groupby. intros Hg Hm.
  apply list_elem_of_fmap in Hg as [k [-> _]]. cbn in Hm.
  apply list_elem_of_fmap in Hm as [[k' r] [-> Hm]].
  apply list_elem_of_filter in Hm as [_ Hm].
  apply list_elem_of_omap in Hm as (r' & Hr' & Hk).
  destruct (Checkpoint.key_of r') as [k''|]; [| discriminate].
  cbn in Hk. injection Hk as <- <-. exact Hr'.
Qed.

(** C2. The quality flag is EXTREME_TEMPERATURE exactly when the temperature
    is present and strictly outside [-50, 60], and VALID otherwise (so an
    absent temperature is VALID), in both scripts; no row of the enriched
    output, and no member of a group of the daily aggregation, is a record
    flagged EXTREME_TEMPERATURE. *)
Theorem quality_gate_spec :
  (forall r : Simple.RawObservation,
     (Simple.quality_flag r = "EXTREME_TEMPERATURE"
      <-> SpecWords.extreme (Simple.temperature r))
     /\ (Simple.quality_flag r = "VALID"
         <-> ~ SpecWords.extreme (Simple.temperature r)))
  /\ (forall r : Checkpoint.RawObservation,
        (Checkpoint.quality_flag r = "EXTREME_TEMPERATURE"
         <-> SpecWords.extreme (Checkpoint.TEMPERATURE r))
        /\ (Checkpoint.quality_flag r = "VALID"
            <-> ~ SpecWords.extreme (Checkpoint.TEMPERATURE r)))
  /\ (forall s : Simple.Store,
        Forall (fun row =>
          Simple.DATA_QUALITY_FLAG row = "VALID"
          /\ ~ SpecWords.extreme (Simple.TEMPERATURE row))
          (Simple.enriched s))
  /\ (forall s : Checkpoint.Store,
        Forall (fun row =>
          Checkpoint.DATA_QUALITY_FLAG row = "VALID"
          /\ ~ SpecWords.extreme (Checkpoint.TEMPERATURE (Checkpoint.clean row)))
          (Checkpoint.enriched s))
  /\ (forall s : Checkpoint.Store,
        from_option (fun d =>
          d = Checkpoint.create_daily_aggregations (Checkpoint.write_daily s)
                (Checkpoint.enriched s)) True
          (Checkpoint.daily (Checkpoint.transform_data s)))
  /\ (forall s : Checkpoint.Store,
        Forall (fun g =>
          Forall (fun m =>
            Checkpoint.DATA_QUALITY_FLAG m = "VALID"
            /\ ~ SpecWords.extreme
                   (Checkpoint.TEMPERATURE (Checkpoint.clean m))) g.2)
          (Checkpoint.groupby (Checkpoint.enriched s))).
Proof.
  assert (Hc : forall s : Checkpoint.Store,
             Forall (fun row =>
               Checkpoint.DATA_QUALITY_FLAG row = "VALID"
               /\ ~ SpecWords.extreme
                      (Checkpoint.TEMPERATURE (Checkpoint.clean row)))
               (Checkpoint.enriched s)).
  { intros s. apply Forall_forall. intros row Hin.
    apply checkpoint_enriched_inv in Hin as (df & r & ts & _ & _ & Hv & _ & ->).
    split; [reflexivity |].
    apply (checkpoint_quality_flag_spec (Checkpoint.fill_missing r)), Hv. }
  split; [exact simple_quality_flag_spec |].
  split; [exact checkpoint_quality_flag_spec |].
  split; [| split; [exact Hc | split]].
  - intros s. apply Forall_forall. intros row Hin.
    apply simple_enriched_inv in Hin as (df & r & _ & _ & Hv & ->).
    split; [reflexivity |].
    apply (simple_quality_flag_spec (Simple.fill_missing r)), Hv.
  - intros s. unfold Checkpoint.enriched, Checkpoint.transform_data.
    destruct (_ ≫= _) as [e|[|r0 df]]; try exact I.
    destruct (Checkpoint.enrich_all _) as [e|df_valid]; try exact I.
    destruct (Checkpoint.write_silver s df_valid) as [e|[[] nrows]];
      try exact I.
    reflexivity.
  - intros s. apply Forall_forall. intros g Hg.
    apply Forall_forall. intros m Hm.
    pose proof (groupby_members _ _ _ Hg Hm) as Hin.
    exact (proj1 (Forall_forall _ _) (Hc s) m Hin).
Qed.

(** ** The severity score (checkpoint script) *)



(** An absent temperature or humidity leaves the score NaN, and a NaN score
    falls through every comparison. *)
Lemma severity_score_nan (temperature wind_speed humidity cloud : Py.num) :
  temperature = None \/ humidity = None ->
  Checkpoint.severity_score temperature wind_speed humidity cloud = None
  /\ Checkpoint.categorize_severity None = "EXTREME".
Proof.
  intros [-> | ->]; split; try reflexivity.
  destruct temperature, wind_speed; reflexivity.
Qed.

Lemma fillna_default (v : Q) (x : Py.num) : Py.fillna v x = Some (default v x).
Proof. now destruct x. Qed.



(** ** Latitude, temperature and season classifiers *)

Ltac classify :=
  num_simpl; q_abs; q_cases;
  repeat split; intros; try reflexivity; try discriminate; try lra.

Lemma simple_hemisphere_spec (l : Q) :
  (Simple.get_hemisphere (Some l) = "NORTHERN" <-> (0 < l)%Q)
  /\ (Simple.get_hemisphere (Some l) = "SOUTHERN" <-> (l < 0)%Q)
  /\ (Simple.get_hemisphere (Some l) = "EQUATORIAL" <-> (l == 0)%Q).
Proof. unfold Simple.get_hemisphere. classify. Qed.

Lemma simple_climate_zone_spec (l : Q) :
  (Simple.get_climate_zone (Some l) = "TROPICAL" <-> (Qabs l <= 23.5)%Q)
  /\ (Simple.get_climate_zone (Some l) = "SUBTROPICAL"
      <-> (23.5 < Qabs l <= 35)%Q)
  /\ (Simple.get_climate_zone (Some l) = "TEMPERATE"
      <-> (35 < Qabs l <= 55)%Q)
  /\ (Simple.get_climate_zone (Some l) = "POLAR" <-> (55 < Qabs l)%Q).
Proof. unfold Simple.get_climate_zone. classify. Qed.

Lemma checkpoint_latitude_present (l : Q) :
  Checkpoint.get_hemisphere (Some l) = Simple.get_hemisphere (Some l)
  /\ Checkpoint.get_climate_zone (Some l) = Simple.get_climate_zone (Some l).
Proof. split; reflexivity. Qed.

Lemma simple_temperature_spec (t : Q) :
  (Simple.categorize_temperature (Some t) = "FREEZING" <-> (t < 0)%Q)
  /\ (Simple.categorize_temperature (Some t) = "COLD" <-> (0 <= t < 10)%Q)
  /\ (Simple.categorize_temperature (Some t) = "COOL" <-> (10 <= t < 20)%Q)
  /\ (Simple.categorize_temperature (Some t) = "WARM" <-> (20 <= t < 30)%Q)
  /\ (Simple.categorize_temperature (Some t) = "HOT" <-> (30 <= t)%Q).
Proof. unfold Simple.categorize_temperature. classify. Qed.

Lemma checkpoint_temperature_present (t : Q) :
  Checkpoint.categorize_temperature (Some t)
  = Simple.categorize_temperature (Some t).
Proof. reflexivity. Qed.

(** C7. In data_transformation.py the hemisphere is NORTHERN above 0,
    SOUTHERN below 0, EQUATORIAL at 0 and UNKNOWN for an absent latitude; the
    climate zone is TROPICAL up to 23.5 of absolute latitude, SUBTROPICAL up
    to 35, TEMPERATE up to 55, POLAR beyond and UNKNOWN for an absent
    latitude.  The checkpoint script agrees on every present latitude and
    answers EQUATORIAL and POLAR for an absent one, as a run on a reading
    without latitude shows. *)
Theorem latitude_classifiers :
  (Simple.get_hemisphere None = "UNKNOWN"
   /\ Simple.get_climate_zone None = "UNKNOWN")
  /\ (forall l : Q,
        (Simple.get_hemisphere (Some l) = "NORTHERN" <-> (0 < l)%Q)
        /\ (Simple.get_hemisphere (Some l) = "SOUTHERN" <-> (l < 0)%Q)
        /\ (Simple.get_hemisphere (Some l) = "EQUATORIAL" <-> (l == 0)%Q))
  /\ (forall l : Q,
        (Simple.get_climate_zone (Some l) = "TROPICAL" <-> (Qabs l <= 23.5)%Q)
        /\ (Simple.get_climate_zone (Some l) = "SUBTROPICAL"
            <-> (23.5 < Qabs l <= 35)%Q)
        /\ (Simple.get_climate_zone (Some l) = "TEMPERATE"
            <-> (35 < Qabs l <= 55)%Q)
        /\ (Simple.get_climate_zone (Some l) = "POLAR" <-> (55 < Qabs l)%Q))
  /\ (forall l : Q,
        Checkpoint.get_hemisphere (Some l) = Simple.get_hemisphere (Some l)
        /\ Checkpoint.get_climate_zone (Some l)
           = Simple.get_climate_zone (Some l))
  /\ Checkpoint.get_hemisphere None = "EQUATORIAL"
  /\ Checkpoint.get_climate_zone None = "POLAR"
  /\ (fun row => (Checkpoint.HEMISPHERE row, Checkpoint.CLIMATE_ZONE row))
       <$> Checkpoint.enriched
             (Scenario.checkpoint_store Scenario.checkpoint_no_latitude)
     = [("EQUATORIAL", "POLAR")].
Proof.
  split; [split; reflexivity |].
  split; [exact simple_hemisphere_spec |].
  split; [exact simple_climate_zone_spec |].
  split; [exact checkpoint_latitude_present |].
  repeat split.
Qed.

(** C8. In data_transformation.py the temperature categories partition the
    temperatures: FREEZING below 0, COLD in [0, 10), COOL in [10, 20), WARM in
    [20, 30), HOT from 30 on, and UNKNOWN for an absent temperature.  The
    checkpoint script agrees on every present temperature and answers HOT for
    an absent one, as a run on a valid reading without temperature shows. *)
Theorem temperature_categories :
  Simple.categorize_temperature None = "UNKNOWN"
  /\ (forall t : Q,
        (Simple.categorize_temperature (Some t) = "FREEZING" <-> (t < 0)%Q)
        /\ (Simple.categorize_temperature (Some t) = "COLD"
            <-> (0 <= t < 10)%Q)
        /\ (Simple.categorize_temperature (Some t) = "COOL"
            <-> (10 <= t < 20)%Q)
        /\ (Simple.categorize_temperature (Some t) = "WARM"
            <-> (20 <= t < 30)%Q)
        /\ (Simple.categorize_temperature (Some t) = "HOT" <-> (30 <= t)%Q))
  /\ (forall t : Q,
        Checkpoint.categorize_temperature (Some t)
        = Simple.categorize_temperature (Some t))
  /\ Checkpoint.categorize_temperature None = "HOT"
  /\ (fun row =>
        (Checkpoint.DATA_QUALITY_FLAG row, Checkpoint.TEMPERATURE_CATEGORY row))
       <$> Checkpoint.enriched
             (Scenario.checkpoint_store Scenario.checkpoint_no_temperature)
     = [("VALID", "HOT")].
Proof.
  split; [reflexivity |].
  split; [exact simple_temperature_spec |].
  split; [exact checkpoint_temperature_present |].
  split; reflexivity.
Qed.

(** The months that are not autumn by default. *)
Lemma simple_season_months (k : Z) :
  (Simple.get_season (Some k) = "WINTER" <-> In k [12; 1; 2]%Z)
  /\ (Simple.get_season (Some k) = "SPRING" <-> In k [3; 4; 5]%Z)
  /\ (Simple.get_season (Some k) = "SUMMER" <-> In k [6; 7; 8]%Z)
  /\ (Simple.get_season (Some k) = "AUTUMN"
      <-> ~ In k [12; 1; 2; 3; 4; 5; 6; 7; 8]%Z).
Proof.
  unfold Simple.get_season. cbn [Py.in_list existsb In].
  repeat match goal with
  | |- context [Z.eqb ?a ?b] => destruct (Z.eqb_spec a b); cbn [orb]
  end;
  repeat split; intros; try reflexivity; try discriminate; try lia.
Qed.

Lemma simple_season_never_unknown (m : option Z) :
  Simple.get_season m <> "UNKNOWN".
Proof.
  unfold Simple.get_season.
  repeat match goal with
  | |- context [if ?b then _ else _] => destruct b
  end; discriminate.
Qed.

(** A record that passes the quality gate reaches the batch handed to the
    writer, whatever the writer and the close do afterwards. *)
Lemma simple_valid_reaches_writer (s : Simple.Store)
    (df_bronze : list Simple.RawObservation) (r : Simple.RawObservation) :
  Stages.simple_fetch s = Py.Return df_bronze ->
  r ∈ df_bronze ->
  Simple.quality_flag (Simple.fill_missing r) = "VALID" ->
  Simple.to_silver (Simple.transform_data s) = Some (Simple.enriched s)
  /\ Simple.enrich (Simple.fill_missing r) "VALID" ∈ Simple.enriched s.
Proof.
  intros Hf Hin Hv.
  assert (Hvalid : (Simple.fill_missing r, "VALID")
                   ∈ Simple.valid_rows df_bronze).
  { unfold Simple.valid_rows. apply list_elem_of_filter.
    split; [reflexivity |].
    apply list_elem_of_fmap. exists (Simple.fill_missing r).
    split; [now rewrite Hv |]. apply list_elem_of_fmap. eauto. }
  unfold Simple.enriched, Simple.transform_data.
  change (_ ← Simple.connect s; _ ← Simple.create_silver_tables s;
          Simple.read_sql s) with (Stages.simple_fetch s).
  rewrite Hf. destruct df_bronze as [|r0 df]; [inversion Hin |].
  destruct (Simple.valid_rows (r0 :: df)) as [|v vs] eqn:Hrows;
    [inversion Hvalid |].
  cbn [Simple.to_silver default from_option id].
  split; [reflexivity |].
  apply list_elem_of_fmap. exists (Simple.fill_missing r, "VALID").
  split; [reflexivity | exact Hvalid].
Qed.

(** C10. Every month outside {12,1,2}, {3,4,5} and {6,7,8}, the NaN month of
    an absent or unparseable timestamp included, gets season AUTUMN, and no
    season is UNKNOWN.  A VALID record of the fetched batch whose timestamp
    is absent or does not parse is enriched and handed to the writer: its
    row is VALID, has season AUTUMN and null date, hour, day of week and
    month; and every row of a run without a timestamp is such a row. *)
Theorem season_fallback :
  Simple.get_season None = "AUTUMN"
  /\ (forall k : Z,
        Simple.get_season (Some k) = "AUTUMN"
        <-> ~ In k [12; 1; 2; 3; 4; 5; 6; 7; 8]%Z)
  /\ (forall m : option Z, Simple.get_season m <> "UNKNOWN")
  /\ (forall text : string,
        Py.to_datetime_coerce Py.TsNull = None
        /\ Py.to_datetime_coerce (Py.TsText text) = None)
  /\ (forall s : Simple.Store,
        Forall (fun row =>
          Simple.TIMESTAMP row = None ->
          Simple.DATA_QUALITY_FLAG row = "VALID"
          /\ Simple.SEASON row = "AUTUMN"
          /\ Simple.DATE row = None
          /\ Simple.HOUR row = None
          /\ Simple.DAY_OF_WEEK row = None
          /\ Simple.MONTH row = None)
          (Simple.enriched s))
  /\ (forall (s : Simple.Store) (df_bronze : list Simple.RawObservation)
             (r : Simple.RawObservation),
        Stages.simple_fetch s = Py.Return df_bronze ->
        r ∈ df_bronze ->
        Simple.quality_flag (Simple.fill_missing r) = "VALID" ->
        Py.to_datetime_coerce (Simple.timestamp r) = None ->
        exists row : Simple.SilverRow,
          Simple.to_silver (Simple.transform_data s)
          = Some (Simple.enriched s)
          /\ row ∈ Simple.enriched s
          /\ row = Simple.enrich (Simple.fill_missing r) "VALID"
          /\ Simple.CITY_ID row = Simple.city_id r
          /\ Simple.TEMPERATURE row = Simple.temperature r
          /\ Simple.TIMESTAMP row = None
          /\ Simple.DATA_QUALITY_FLAG row = "VALID"
          /\ Simple.SEASON row = "AUTUMN"
          /\ Simple.DATE row = None
          /\ Simple.HOUR row = None
          /\ Simple.DAY_OF_WEEK row = None
          /\ Simple.MONTH row = None).
Proof.
  split; [reflexivity |].
  split; [intros k; apply simple_season_months |].
  split; [exact simple_season_never_unknown |].
  split; [intros text; split; reflexivity |].
  split.
  - intros s. apply Forall_forall. intros row Hin.
    apply simple_enriched_inv in Hin as (df & r & _ & _ & _ & ->).
    cbn. intros ->. repeat split.
  - intros s df r Hf Hin Hv Hts.
    destruct (simple_valid_reaches_writer s df r Hf Hin Hv) as (Hto & Hrow).
    eexists. split; [exact Hto |]. split; [exact Hrow |].
    split; [reflexivity |].
    cbn. rewrite Hts. repeat split.
Qed.

(** C10 on the batch of three readings: the one without a timestamp reaches
    the writer with season AUTUMN. *)
Lemma season_fallback_witness :
  exists row : Simple.SilverRow,
    row ∈ Simple.enriched (Scenario.simple_store Scenario.simple_batch)
    /\ Simple.TEMPERATURE row = Some 10%Q
    /\ Simple.TIMESTAMP row = None
    /\ Simple.SEASON row = "AUTUMN".
Proof.
  destruct (proj2 (proj2 (proj2 (proj2 (proj2 season_fallback))))
              (Scenario.simple_store Scenario.simple_batch)
              Scenario.simple_batch
              (Scenario.simple_obs (Some 10%Q) None (Some 51.5%Q) Py.TsNull)
              eq_refl)
    as (row & _ & Hin & _ & _ & Ht & Hts & _ & Hseason & _).
  - unfold Scenario.simple_batch. apply list_elem_of_further,
      list_elem_of_further, list_elem_of_here.
  - reflexivity.
  - reflexivity.
  - exists row. auto.
Defined.

(** ** The result dictionary *)

(** The rejected records of a batch. *)
Lemma simple_batch_counts :
  length Scenario.simple_batch = 3%nat
  /\ length (Simple.valid_rows Scenario.simple_batch) = 2%nat
  /\ length (filter (fun r => Simple.quality_flag (Simple.fill_missing r)
                              = "EXTREME_TEMPERATURE")
               Scenario.simple_batch) = 1%nat.
Proof. repeat split. Qed.

(** C5, as stated, fails: on a batch of three with one rejected record the
    success result holds the input size 3 and the written rows 2, and no
    entry of it holds the rejected count 1; the checkpoint script reports
    the 2 valid rows twice and neither the input size nor the rejected
    count. *)
Lemma success_result_without_rejected :
  Simple.result (Simple.transform_data
                   (Scenario.simple_store Scenario.simple_batch))
  = {[ "status" := Py.VStr "SUCCESS"; "bronze_rows" := Py.VInt 3;
       "silver_rows" := Py.VInt 2 ]}
  /\ length (filter (fun r => Simple.quality_flag (Simple.fill_missing r)
                              = "EXTREME_TEMPERATURE")
               Scenario.simple_batch) = 1%nat
  /\ map_Forall (fun _ v => v <> Py.VInt 1)
       (Simple.result (Simple.transform_data
                         (Scenario.simple_store Scenario.simple_batch)))
  /\ Checkpoint.result (Checkpoint.transform_data
                          (Scenario.checkpoint_store Scenario.checkpoint_batch))
     = {[ "status" := Py.VStr "SUCCESS";
          "records_transformed" := Py.VInt 2;
          "silver_rows_written" := Py.VInt 2 ]}
  /\ map_Forall (fun _ v => v <> Py.VInt 1 /\ v <> Py.VInt 3)
       (Checkpoint.result
          (Checkpoint.transform_data
             (Scenario.checkpoint_store Scenario.checkpoint_batch))).
Proof.
  assert (Hs : Simple.result (Simple.transform_data
                   (Scenario.simple_store Scenario.simple_batch))
               = {[ "status" := Py.VStr "SUCCESS"; "bronze_rows" := Py.VInt 3;
                    "silver_rows" := Py.VInt 2 ]}) by (vm_compute; reflexivity).
  assert (Hc : Checkpoint.result (Checkpoint.transform_data
                   (Scenario.checkpoint_store Scenario.checkpoint_batch))
               = {[ "status" := Py.VStr "SUCCESS";
                    "records_transformed" := Py.VInt 2;
                    "silver_rows_written" := Py.VInt 2 ]})
    by (vm_compute; reflexivity).
  split; [exact Hs |]. split; [reflexivity |].
  split; [| split; [exact Hc |]].
  - rewrite Hs. intros k v Hk.
    apply lookup_insert_Some in Hk as [[_ <-] | [_ Hk]]; [discriminate |].
    apply lookup_insert_Some in Hk as [[_ <-] | [_ Hk]]; [discriminate |].
    apply lookup_singleton_Some in Hk as [_ <-]. discriminate.
  - rewrite Hc. intros k v Hk.
    apply lookup_insert_Some in Hk as [[_ <-] | [_ Hk]]; [split; discriminate |].
    apply lookup_insert_Some in Hk as [[_ <-] | [_ Hk]]; [split; discriminate |].
    apply lookup_singleton_Some in Hk as [_ <-]. split; discriminate.
Qed.

(** The status of a two-entry result. *)
Lemma status_lookup (v w : Py.pyval) (k : string) :
  ({[ "status" := v; k := w ]} : gmap string Py.pyval) !! "status" = Some v.
Proof. apply lookup_insert_eq. Qed.

Ltac wrong_status :=
  let H := fresh in
  intros H; cbn [Simple.result Checkpoint.result] in H;
  unfold Simple.close_with_warning, Simple.failed, Checkpoint.failed in H;
  repeat match type of H with
  | context [Simple.close ?s] => destruct (Simple.close s) as [?|[]]
  | context [Checkpoint.close ?s] => destruct (Checkpoint.close s) as [?|[]]
  end;
  cbn [mbind Py.exc_bind mret Py.exc_ret] in H;
  rewrite status_lookup in H; discriminate H.

(** A run that reports SUCCESS read a non-empty batch, kept its valid rows
    and wrote them. *)
Lemma simple_success_inv (s : Simple.Store) :
  Simple.result (Simple.transform_data s) !! "status"
  = Some (Py.VStr "SUCCESS") ->
  exists (df_bronze : list Simple.RawObservation) (nrows : Z),
    Simple.read_sql s = Py.Return df_bronze
    /\ df_bronze <> []
    /\ Simple.enriched s
       = (fun rf => Simple.enrich rf.1 rf.2) <$> Simple.valid_rows df_bronze
    /\ Simple.write_pandas s (Simple.enriched s) = Py.Return (true, nrows)
    /\ Simple.result (Simple.transform_data s)
       = {[ "status" := Py.VStr "SUCCESS";
            "bronze_rows" := Py.VInt (Z.of_nat (length df_bronze));
            "silver_rows" := Py.VInt nrows ]}.
Proof.
  unfold Simple.enriched, Simple.transform_data.
  destruct (Simple.connect s) as [e|[]]; cbn [mbind Py.exc_bind];
    [wrong_status |].
  destruct (Simple.create_silver_tables s) as [e|[]]; cbn [mbind Py.exc_bind];
    [wrong_status |].
  destruct (Simple.read_sql s) as [e|[|r0 df]];
    [wrong_status | wrong_status |].
  destruct (Simple.valid_rows (r0 :: df)) as [|v vs] eqn:Hv;
    [wrong_status |].
  cbn [Simple.result Simple.to_silver default]. rewrite <- Hv.
  destruct (Simple.write_pandas s _) as [e|[[] nrows]] eqn:Hw;
    cbn [mbind Py.exc_bind]; [wrong_status | | wrong_status].
  destruct (Simple.close s) as [e|[]];
    cbn [mbind Py.exc_bind mret Py.exc_ret]; [wrong_status |].
  intros _. exists (r0 :: df), nrows.
  repeat split; discriminate.
Qed.

Lemma checkpoint_success_inv (s : Checkpoint.Store) :
  Checkpoint.result (Checkpoint.transform_data s) !! "status"
  = Some (Py.VStr "SUCCESS") ->
  exists (df_bronze : list Checkpoint.RawObservation) (nrows : Z),
    Checkpoint.read_sql s = Py.Return df_bronze
    /\ df_bronze <> []
    /\ Checkpoint.enrich_all (Checkpoint.valid_rows df_bronze)
       = Py.Return (Checkpoint.enriched s)
    /\ Checkpoint.write_silver s (Checkpoint.enriched s)
       = Py.Return (true, nrows)
    /\ Checkpoint.result (Checkpoint.transform_data s)
       = {[ "status" := Py.VStr "SUCCESS";
            "records_transformed" :=
              Py.VInt (Z.of_nat (length (Checkpoint.enriched s)));
            "silver_rows_written" := Py.VInt nrows ]}.
Proof.
  unfold Checkpoint.enriched, Checkpoint.transform_data, Checkpoint.failed.
  destruct (Checkpoint.connect s) as [e|[]]; cbn [mbind Py.exc_bind];
    [wrong_status |].
  destruct (Checkpoint.create_silver_tables s) as [e|[]];
    cbn [mbind Py.exc_bind]; [wrong_status |].
  destruct (Checkpoint.read_sql s) as [e|[|r0 df]];
    [wrong_status | wrong_status |].
  destruct (Checkpoint.enrich_all _) as [e|df_valid] eqn:Hall;
    [wrong_status |].
  destruct (Checkpoint.write_silver s df_valid) as [e|[[] nrows]] eqn:Hw;
    [wrong_status | | wrong_status].
  cbn [Checkpoint.result].
  destruct (Checkpoint.close s) as [e|[]]; [wrong_status |].
  intros _. exists (r0 :: df), nrows.
  repeat split; first [discriminate | exact Hall | exact Hw].
Qed.

(** C5, amended. A success result reports two counts and no rejected count:
    in data_transformation.py the input batch size and the row count the
    writer returned for the valid rows; in the checkpoint script the number
    of valid rows and the row count the writer returned. *)
Theorem success_result_counts :
  (forall s : Simple.Store,
     Simple.result (Simple.transform_data s) !! "status"
     = Some (Py.VStr "SUCCESS") ->
     exists (df_bronze : list Simple.RawObservation) (nrows : Z),
       Simple.read_sql s = Py.Return df_bronze
       /\ df_bronze <> []
       /\ Simple.enriched s
          = (fun rf => Simple.enrich rf.1 rf.2)
              <$> Simple.valid_rows df_bronze
       /\ Simple.write_pandas s (Simple.enriched s) = Py.Return (true, nrows)
       /\ Simple.result (Simple.transform_data s)
          = {[ "status" := Py.VStr "SUCCESS";
               "bronze_rows" := Py.VInt (Z.of_nat (length df_bronze));
               "silver_rows" := Py.VInt nrows ]})
  /\ (forall s : Checkpoint.Store,
        Checkpoint.result (Checkpoint.transform_data s) !! "status"
        = Some (Py.VStr "SUCCESS") ->
        exists (df_bronze : list Checkpoint.RawObservation) (nrows : Z),
          Checkpoint.read_sql s = Py.Return df_bronze
          /\ df_bronze <> []
          /\ Checkpoint.enrich_all (Checkpoint.valid_rows df_bronze)
             = Py.Return (Checkpoint.enriched s)
          /\ Checkpoint.write_silver s (Checkpoint.enriched s)
             = Py.Return (true, nrows)
          /\ Checkpoint.result (Checkpoint.transform_data s)
             = {[ "status" := Py.VStr "SUCCESS";
                  "records_transformed" :=
                    Py.VInt (Z.of_nat (length (Checkpoint.enriched s)));
                  "silver_rows_written" := Py.VInt nrows ]}).
Proof. split; [exact simple_success_inv | exact checkpoint_success_inv]. Qed.

(** The amended C5 on the batch of three with one rejected record. *)
Lemma success_result_counts_witness :
  exists (df_bronze : list Simple.RawObservation) (nrows : Z),
    df_bronze = Scenario.simple_batch
    /\ nrows = 2%Z
    /\ Simple.result (Simple.transform_data
                        (Scenario.simple_store Scenario.simple_batch))
       = {[ "status" := Py.VStr "SUCCESS";
            "bronze_rows" := Py.VInt (Z.of_nat (length df_bronze));
            "silver_rows" := Py.VInt nrows ]}.
Proof.
  destruct (proj1 success_result_counts
              (Scenario.simple_store Scenario.simple_batch))
    as (df & nrows & Hread & _ & _ & Hw & Hres).
  - vm_compute. reflexivity.
  - exists df, nrows. injection Hread as <-. injection Hw as <-.
    split; [reflexivity |]. split; [reflexivity | exact Hres].
Defined.

(** ** The daily aggregation *)

(** Counting by key: the groups of a keyed list share its elements out. *)
Section CountByKey.
Context {K A : Type} `{EqDecision K} (f : A -> nat).

Lemma sum_indicator (k0 : K) (c : nat) (ks : list K) :
  NoDup ks -> k0 ∈ ks ->
  sum_list_with (fun k => if decide (k0 = k) then c else 0%nat) ks = c.
Proof.
  induction ks as [|k ks IH]; intros Hnd Hin; [inversion Hin |].
  apply NoDup_cons in Hnd as [Hk Hnd]. cbn.
  destruct (decide (k0 = k)) as [->|Hne].
  - assert (sum_list_with (fun k' => if decide (k = k') then c else 0%nat) ks
            = 0%nat) as ->; [| lia].
    clear IH Hnd Hin. induction ks as [|k' ks IH]; [reflexivity |].
    apply not_elem_of_cons in Hk as [Hne Hk]. cbn.
    destruct (decide (k = k')); [contradiction |]. now rewrite IH.
  - apply elem_of_cons in Hin as [->|Hin]; [contradiction |].
    now rewrite IH.
Qed.

Lemma sum_list_with_plus {B : Type} (g h : B -> nat) (l : list B) :
  sum_list_with (fun x => (g x + h x)%nat) l
  = (sum_list_with g l + sum_list_with h l)%nat.
Proof. induction l as [|x l IH]; cbn; [reflexivity | rewrite IH; lia]. Qed.

Lemma sum_list_with_ext {B : Type} (g h : B -> nat) (l : list B) :
  (forall x, g x = h x) -> sum_list_with g l = sum_list_with h l.
Proof. intros E. induction l as [|x l IH]; cbn; [reflexivity |]. now rewrite E, IH. Qed.

Lemma sum_by_key (l : list (K * A)) (ks : list K) :
  NoDup ks -> (forall kr, kr ∈ l -> kr.1 ∈ ks) ->
  sum_list_with
    (fun k => sum_list_with f (filter (fun kr => kr.1 = k) l).*2) ks
  = sum_list_with f l.*2.
Proof.
  intros Hnd. induction l as [|[k0 a] l IH]; intros Hcov.
  - cbn. induction ks as [|k ks IHk]; [reflexivity |].
    apply NoDup_cons in Hnd as [_ Hnd]. cbn. now rewrite IHk.
  - rewrite (sum_list_with_ext _
      (fun k => ((if decide (k0 = k) then f a else 0)
                 + sum_list_with f (filter (fun kr => kr.1 = k) l).*2)%nat)).
    + rewrite sum_list_with_plus, sum_indicator, IH; cbn; auto.
      * intros kr Hkr. apply Hcov. now apply list_elem_of_further.
      * apply (Hcov (k0, a)). apply list_elem_of_here.
    + intros k. rewrite filter_cons. cbn.
      destruct (decide (k0 = k)); reflexivity.
Qed.

End CountByKey.

Lemma sum_list_with_fmap {A B : Type} (f : B -> nat) (g : A -> B)
    (l : list A) :
  sum_list_with f (g <$> l) = sum_list_with (f ∘ g) l.
Proof. induction l as [|x l IH]; cbn; [reflexivity | now rewrite IH]. Qed.

Lemma count_temperatures (ms : list Checkpoint.SilverRow) :
  Checkpoint.count ((Checkpoint.TEMPERATURE ∘ Checkpoint.clean) <$> ms)
  = Z.of_nat (sum_list_with Checkpoint.has_temperature ms).
Proof.
  unfold Checkpoint.count, Checkpoint.values. f_equal.
  induction ms as [|m ms IH]; [reflexivity |].
  cbn. unfold Checkpoint.has_temperature at 1.
  destruct (Checkpoint.TEMPERATURE (Checkpoint.clean m)); cbn; now rewrite IH.
Qed.

(** The readings of all groups together: the rows that have a key and a
    temperature. *)
Lemma groupby_readings (df : list Checkpoint.SilverRow) :
  sum_list_with (fun g => sum_list_with Checkpoint.has_temperature g.2)
    (Checkpoint.groupby df)
  = length (filter (fun r => is_Some (Checkpoint.key_of r)
                             /\ is_Some (Checkpoint.TEMPERATURE
                                           (Checkpoint.clean r))) df).
Proof.
  unfold Checkpoint.groupby.
  set (keyed := omap (fun r => (fun k => (k, r)) <$> Checkpoint.key_of r) df).
  rewrite sum_list_with_fmap.
  rewrite (sum_list_with_ext _
    (fun k => sum_list_with Checkpoint.has_temperature
                (filter (fun kr => kr.1 = k) keyed).*2)) by reflexivity.
  rewrite sum_by_key.
  - subst keyed. induction df as [|r df IH]; [reflexivity |].
    rewrite filter_cons. cbn. unfold Checkpoint.has_temperature at 1.
    destruct (Checkpoint.key_of r) as [k|]; cbn.
    + destruct (Checkpoint.TEMPERATURE (Checkpoint.clean r)) as [t|]; cbn.
      * destruct (decide _) as [_|Hn]; [cbn [length]; f_equal; exact IH |].
        exfalso. apply Hn. split; eauto.
      * destruct (decide _) as [[_ [t Ht]]|_]; [discriminate | exact IH].
    + destruct (decide _) as [[[k Hk] _]|_]; [discriminate | exact IH].
  - rewrite merge_sort_Permutation. apply NoDup_remove_dups.
  - intros kr Hkr. rewrite merge_sort_Permutation, elem_of_remove_dups.
    apply list_elem_of_fmap. now exists kr.
Qed.

(** The dictionary keeps one entry for WEATHER_MAIN, the last one. *)
Lemma agg_spec_weather_main :
  Checkpoint.assoc "WEATHER_MAIN" Checkpoint.agg_spec
  = Some [Checkpoint.Nunique]
  /\ length (Checkpoint.agg_labels Checkpoint.agg_spec) = 13%nat.
Proof. split; reflexivity. Qed.

(** Every group aggregates without an exception; the first cell is the
    count of its non-null temperatures. *)
Lemma aggregate_returns (members : list Checkpoint.SilverRow) :
  exists rest : list Checkpoint.cell,
    Checkpoint.aggregate Checkpoint.agg_spec members
    = Py.Return
        (Checkpoint.CInt
           (Some (Checkpoint.count
                    ((Checkpoint.TEMPERATURE ∘ Checkpoint.clean) <$> members)))
         :: rest)
    /\ length rest = 12%nat.
Proof. eexists. split; reflexivity. Qed.

Lemma group_rows_return
    (gs : list (Checkpoint.GroupKey * list Checkpoint.SilverRow)) :
  exists rows : list (list Checkpoint.cell),
    mapM (fun g : Checkpoint.GroupKey * list Checkpoint.SilverRow =>
            cells ← Checkpoint.aggregate Checkpoint.agg_spec g.2;
            mret (Checkpoint.key_cells g.1 ++ cells)%list) gs
    = Py.Return rows
    /\ Forall2 (fun g row =>
         Checkpoint.reading_count row
         = Z.of_nat (sum_list_with Checkpoint.has_temperature g.2)
         /\ length row = 19%nat) gs rows.
Proof.
  induction gs as [|g gs (rows & Hrows & Hall)].
  - exists []. split; [reflexivity | constructor].
  - destruct (aggregate_returns g.2) as (rest & Hagg & Hlen).
    exists ((Checkpoint.key_cells g.1
             ++ Checkpoint.CInt
                  (Some (Checkpoint.count
                           ((Checkpoint.TEMPERATURE ∘ Checkpoint.clean)
                              <$> g.2))) :: rest)%list :: rows).
    split.
    + cbn [mapM]. rewrite Hagg. cbn [mbind mret Py.exc_bind Py.exc_ret].
      rewrite Hrows. reflexivity.
    + constructor; [| exact Hall]. split.
      * unfold Checkpoint.reading_count. cbn. apply count_temperatures.
      * cbn. now rewrite Hlen.
Qed.

Lemma groupby_agg_returns (df : list Checkpoint.SilverRow) :
  exists rows : list (list Checkpoint.cell),
    Checkpoint.groupby_agg df
    = Py.Return
        {| Checkpoint.columns :=
             (((fun k => (k, "")) <$> Checkpoint.group_keys)
              ++ Checkpoint.agg_labels Checkpoint.agg_spec)%list;
           Checkpoint.rows := rows |}
    /\ Forall2 (fun g row =>
         Checkpoint.reading_count row
         = Z.of_nat (sum_list_with Checkpoint.has_temperature g.2)
         /\ length row = 19%nat) (Checkpoint.groupby df) rows.
Proof.
  destruct (group_rows_return (Checkpoint.groupby df)) as (rows & Hrows & Hall).
  exists rows. split; [| exact Hall].
  unfold Checkpoint.groupby_agg. rewrite Hrows. reflexivity.
Qed.

Lemma daily_frame_raises (df : list Checkpoint.SilverRow) :
  Checkpoint.daily_frame df
  = Py.Raise "Length mismatch: Expected axis has 19 elements, new values have 20 elements".
Proof.
  unfold Checkpoint.daily_frame.
  destruct (groupby_agg_returns df) as (rows & -> & _).
  reflexivity.
Qed.

(** C4. On every batch the daily aggregation fails before any summary
    exists: the dictionary names WEATHER_MAIN twice, only the count of
    distinct conditions is aggregated, the frame has 19 columns and the 20
    flat labels do not fit; nothing is written, so no DOMINANT_WEATHER or
    WEATHER_CHANGES_COUNT is produced. *)
Theorem daily_aggregation_fails :
  Checkpoint.assoc "WEATHER_MAIN" Checkpoint.agg_spec
  = Some [Checkpoint.Nunique]
  /\ length (Checkpoint.group_keys)
     + length (Checkpoint.agg_labels Checkpoint.agg_spec) = 19%nat
  /\ length Checkpoint.daily_columns = 20%nat
  /\ forall (pd_writer : Checkpoint.frame string -> Py.exc (bool * Z))
            (df_silver : list Checkpoint.SilverRow),
       Checkpoint.create_daily_aggregations pd_writer df_silver
       = {| Checkpoint.to_daily := None;
            Checkpoint.log_level := "ERROR";
            Checkpoint.log_message :=
              "Daily aggregation failed: Length mismatch: Expected axis has 19 elements, new values have 20 elements" |}.
Proof.
  repeat split.
  intros pd_writer df_silver. unfold Checkpoint.create_daily_aggregations.
  rewrite daily_frame_raises. reflexivity.
Qed.

Lemma foldr_readings
    (gs : list (Checkpoint.GroupKey * list Checkpoint.SilverRow))
    (rows : list (list Checkpoint.cell)) :
  Forall2 (fun g row =>
    Checkpoint.reading_count row
    = Z.of_nat (sum_list_with Checkpoint.has_temperature g.2)
    /\ length row = 19%nat) gs rows ->
  foldr Z.add 0%Z (Checkpoint.reading_count <$> rows)
  = Z.of_nat (sum_list_with (fun g => sum_list_with Checkpoint.has_temperature g.2) gs).
Proof.
  induction 1 as [|g row gs rows [Hrow _] _ IH]; [reflexivity |].
  cbn. rewrite Hrow, IH. lia.
Qed.

(** C6, amended. The reading counts of the groups the aggregation forms
    (the count of TEMPERATURE, which the flat labels call HOURLY_READINGS) add
    up to the number of batch rows that have a temperature and all six
    grouping keys; the sum never exceeds the batch size, and it equals the
    batch size when no row lacks a temperature or a key. *)
Theorem grouped_readings_total (df_silver : list Checkpoint.SilverRow) :
  exists f : Checkpoint.frame (string * string),
    Checkpoint.groupby_agg df_silver = Py.Return f
    /\ Checkpoint.columns f !! 6%nat = Some ("TEMPERATURE", "count")
    /\ Checkpoint.daily_columns !! 6%nat = Some "HOURLY_READINGS"
    /\ Checkpoint.total_readings f
       = Z.of_nat
           (length
              (filter (fun r => is_Some (Checkpoint.key_of r)
                                /\ is_Some (Checkpoint.TEMPERATURE
                                              (Checkpoint.clean r)))
                 df_silver))
    /\ (Checkpoint.total_readings f <= Z.of_nat (length df_silver))%Z
    /\ (Forall (fun r => is_Some (Checkpoint.key_of r)
                         /\ is_Some (Checkpoint.TEMPERATURE
                                       (Checkpoint.clean r))) df_silver ->
        Checkpoint.total_readings f = Z.of_nat (length df_silver)).
Proof.
  destruct (groupby_agg_returns df_silver) as (rows & Hf & Hall).
  eexists. split; [exact Hf |]. split; [reflexivity |].
  split; [reflexivity |].
  assert (Htotal : Checkpoint.total_readings
                     {| Checkpoint.columns :=
                          (((fun k => (k, "")) <$> Checkpoint.group_keys)
                           ++ Checkpoint.agg_labels Checkpoint.agg_spec)%list;
                        Checkpoint.rows := rows |}
                   = Z.of_nat
                       (length
                          (filter (fun r =>
                             is_Some (Checkpoint.key_of r)
                             /\ is_Some (Checkpoint.TEMPERATURE
                                           (Checkpoint.clean r)))
                             df_silver))).
  { unfold Checkpoint.total_readings. cbn [Checkpoint.rows].
    rewrite (foldr_readings _ _ Hall), groupby_readings. reflexivity. }
  split; [exact Htotal |]. rewrite Htotal. split.
  - apply inj_le, length_filter.
  - intros Hall'. f_equal. f_equal.
    clear -Hall'. induction Hall' as [|r l Hr _ IH]; [reflexivity |].
    rewrite filter_cons_True by exact Hr. now rewrite IH.
Qed.

(** C6, as stated, fails: one valid row whose temperature is missing forms one
    group whose reading count is 0, so the counts add up to 0 for a batch of
    1 (and the aggregation writes no summary at all). *)
Lemma readings_short_of_batch :
  let df_silver :=
    Checkpoint.enriched
      (Scenario.checkpoint_store Scenario.checkpoint_no_temperature) in
  length df_silver = 1%nat
  /\ length (Checkpoint.groupby df_silver) = 1%nat
  /\ (exists f : Checkpoint.frame (string * string),
        Checkpoint.groupby_agg df_silver = Py.Return f
        /\ Checkpoint.total_readings f = 0%Z)
  /\ Checkpoint.to_daily
       (Checkpoint.create_daily_aggregations Scenario.daily_writer df_silver)
     = None.
Proof.
  cbv zeta. split; [reflexivity |]. split; [vm_compute; reflexivity |].
  split; [| vm_compute; reflexivity].
  eexists. split; [vm_compute; reflexivity | reflexivity].
Qed.

(** ** Empty batches *)







(** ** The scenarios of the specification *)

(** London, latitude 51.5, 21 degrees, humidity 50, wind 5, clouds 50. *)
Example london_scenario :
  (fun row =>
     (Simple.HEMISPHERE row, Simple.CLIMATE_ZONE row,
      Simple.TEMPERATURE_CATEGORY row, Simple.HUMIDITY_CATEGORY row,
      Simple.COMFORT_INDEX row, Simple.COMFORT_LEVEL row,
      Simple.DATA_QUALITY_FLAG row, Simple.SEASON row,
      Simple.DAY_OF_WEEK row))
    <$> Simple.enriched
          (Scenario.simple_store
             [Scenario.simple_obs (Some 21%Q) (Some 5%Q) (Some 51.5%Q)
                (Py.TsValue Scenario.noon)])
  = [("NORTHERN", "TEMPERATE", "WARM", "COMFORTABLE", Some 100%Q,
      "VERY_COMFORTABLE", "VALID", "WINTER", Some "Monday")].
Proof. reflexivity. Qed.

(** Of the three readings, the one at -60 degrees is left out; the one
    without a timestamp is kept, its season AUTUMN, and its missing wind
    speed, filled with 0, costs 10 points of comfort. *)
Example batch_scenario :
  (fun row =>
     (Simple.TEMPERATURE row, Simple.WIND_SPEED row, Simple.SEASON row,
      Simple.DATE row, Simple.COMFORT_INDEX row))
    <$> Simple.enriched (Scenario.simple_store Scenario.simple_batch)
  = [(Some 21%Q, Some 5%Q, "WINTER",
      Some {| Py.year := 2024; Py.month := 1; Py.day := 1 |}, Some 100%Q);
     (Some 10%Q, Some 0%Q, "AUTUMN", None, Some 35.0%Q)].
Proof. reflexivity. Qed.

(** A reading without latitude, and one without temperature, through the
    checkpoint script. *)
Example checkpoint_absent_inputs :
  (fun row => (Checkpoint.HEMISPHERE row, Checkpoint.CLIMATE_ZONE row))
    <$> Checkpoint.enriched
          (Scenario.checkpoint_store Scenario.checkpoint_no_latitude)
  = [("EQUATORIAL", "POLAR")]
  /\ (fun row =>
        (Checkpoint.DATA_QUALITY_FLAG row, Checkpoint.TEMPERATURE_CATEGORY row,
         Checkpoint.WEATHER_SEVERITY_SCORE row, Checkpoint.SEVERITY_LEVEL row))
       <$> Checkpoint.enriched
             (Scenario.checkpoint_store Scenario.checkpoint_no_temperature)
     = [("VALID", "HOT", None, "EXTREME")].
Proof. split; reflexivity. Qed.

(** [x.mode()[0]] breaks a tie by the order of the values, not by the order
    of appearance. *)
Example mode_tie :
  Checkpoint.mode0 String.eqb String.leb
    [Some "Rain"; Some "Clouds"; Some "Rain"; Some "Clouds"]
  = Some "Clouds".
Proof. reflexivity. Qed.

(** ** Further properties of the enrichment *)

Ltac split_abs :=
  repeat match goal with
  | H : (_ == _)%Q \/ (_ == _)%Q |- _ => destruct H
  end.

Lemma simple_humidity_spec (h : Q) :
  (Simple.categorize_humidity (Some h) = "DRY" <-> (h < 30)%Q)
  /\ (Simple.categorize_humidity (Some h) = "COMFORTABLE"
      <-> (30 <= h < 60)%Q)
  /\ (Simple.categorize_humidity (Some h) = "HUMID" <-> (60 <= h < 80)%Q)
  /\ (Simple.categorize_humidity (Some h) = "VERY_HUMID" <-> (80 <= h)%Q).
Proof. unfold Simple.categorize_humidity. classify. Qed.

(** X1. In data_transformation.py the humidity categories partition the
    humidities: DRY below 30, COMFORTABLE in [30, 60), HUMID in [60, 80),
    VERY_HUMID from 80 on, UNKNOWN for an absent humidity.  The checkpoint
    script agrees on every present humidity and answers VERY_HUMID for an
    absent one. *)
Theorem humidity_categories :
  Simple.categorize_humidity None = "UNKNOWN"
  /\ (forall h : Q,
        (Simple.categorize_humidity (Some h) = "DRY" <-> (h < 30)%Q)
        /\ (Simple.categorize_humidity (Some h) = "COMFORTABLE"
            <-> (30 <= h < 60)%Q)
        /\ (Simple.categorize_humidity (Some h) = "HUMID"
            <-> (60 <= h < 80)%Q)
        /\ (Simple.categorize_humidity (Some h) = "VERY_HUMID"
            <-> (80 <= h)%Q))
  /\ (forall h : Q,
        Checkpoint.categorize_humidity (Some h)
        = Simple.categorize_humidity (Some h))
  /\ Checkpoint.categorize_humidity None = "VERY_HUMID".
Proof.
  split; [reflexivity |]. split; [exact simple_humidity_spec |].
  split; [intros h |]; reflexivity.
Qed.

Lemma comfort_level_bins (c : Q) :
  (Simple.categorize_comfort (Some c) = "VERY_COMFORTABLE" <-> (80 <= c)%Q)
  /\ (Simple.categorize_comfort (Some c) = "COMFORTABLE"
      <-> (60 <= c < 80)%Q)
  /\ (Simple.categorize_comfort (Some c) = "MODERATE" <-> (40 <= c < 60)%Q)
  /\ (Simple.categorize_comfort (Some c) = "UNCOMFORTABLE"
      <-> (20 <= c < 40)%Q)
  /\ (Simple.categorize_comfort (Some c) = "VERY_UNCOMFORTABLE"
      <-> (c < 20)%Q)
  /\ Simple.categorize_comfort (Some c) <> "UNKNOWN".
Proof. unfold Simple.categorize_comfort. classify. Qed.

Lemma comfort_level_unknown (temp humidity wind_speed : Py.num) :
  Simple.categorize_comfort
    (Simple.calculate_comfort_index temp humidity wind_speed) = "UNKNOWN"
  <-> temp = None \/ humidity = None.
Proof.
  pose proof (comfort_index_None temp humidity wind_speed) as Hnone.
  destruct (Simple.calculate_comfort_index temp humidity wind_speed) as [c|].
  - split.
    + intros H. destruct (comfort_level_bins c) as (_ & _ & _ & _ & _ & Hn).
      contradiction.
    + intros Hor. apply Hnone in Hor. discriminate.
  - split; intros; [apply Hnone |]; reflexivity.
Qed.

(** X2. The comfort level follows the index: VERY_COMFORTABLE from 80 on,
    COMFORTABLE from 60, MODERATE from 40, UNCOMFORTABLE from 20,
    VERY_UNCOMFORTABLE below; the level of an observation is UNKNOWN exactly
    when its temperature or humidity is absent, in the function and on every
    row a run enriches; the checkpoint script's function has the same bins:
    it returns the same level on every index, present or absent. *)
Theorem comfort_levels :
  (forall c : Q,
     (Simple.categorize_comfort (Some c) = "VERY_COMFORTABLE"
      <-> (80 <= c)%Q)
     /\ (Simple.categorize_comfort (Some c) = "COMFORTABLE"
         <-> (60 <= c < 80)%Q)
     /\ (Simple.categorize_comfort (Some c) = "MODERATE"
         <-> (40 <= c < 60)%Q)
     /\ (Simple.categorize_comfort (Some c) = "UNCOMFORTABLE"
         <-> (20 <= c < 40)%Q)
     /\ (Simple.categorize_comfort (Some c) = "VERY_UNCOMFORTABLE"
         <-> (c < 20)%Q)
     /\ Simple.categorize_comfort (Some c) <> "UNKNOWN")
  /\ (forall temp humidity wind_speed : Py.num,
        Simple.categorize_comfort
          (Simple.calculate_comfort_index temp humidity wind_speed)
        = "UNKNOWN"
        <-> temp = None \/ humidity = None)
  /\ (forall s : Simple.Store,
        Forall (fun row =>
          Simple.COMFORT_LEVEL row = "UNKNOWN"
          <-> Simple.TEMPERATURE row = None \/ Simple.HUMIDITY row = None)
          (Simple.enriched s))
  /\ (forall s : Checkpoint.Store,
        Forall (fun row =>
          Checkpoint.COMFORT_LEVEL row = "UNKNOWN"
          <-> Checkpoint.TEMPERATURE (Checkpoint.clean row) = None
              \/ Checkpoint.HUMIDITY (Checkpoint.clean row) = None)
          (Checkpoint.enriched s))
  /\ Simple.categorize_comfort None = "UNKNOWN"
  /\ (forall c : Py.num,
        Checkpoint.categorize_comfort c = Simple.categorize_comfort c).
Proof.
  assert (Hsame : forall c : Py.num,
            Checkpoint.categorize_comfort c = Simple.categorize_comfort c).
  { intros [c|]; [| reflexivity].
    unfold Checkpoint.categorize_comfort, Simple.categorize_comfort.
    reflexivity. }
  split; [exact comfort_level_bins |].
  split; [exact comfort_level_unknown |]. split; [| split; [| split]].
  - intros s. apply Forall_forall. intros row Hin.
    apply simple_enriched_inv in Hin as (df & r & _ & _ & _ & ->).
    apply comfort_level_unknown.
  - intros s. apply Forall_forall. intros row Hin.
    apply checkpoint_enriched_inv in Hin as (df & r & ts & _ & _ & _ & _ & ->).
    cbn [Checkpoint.COMFORT_LEVEL Checkpoint.enrich]. rewrite Hsame.
    rewrite checkpoint_comfort_index_eq. apply comfort_level_unknown.
  - reflexivity.
  - exact Hsame.
Qed.

(** X4. The temperature caps the comfort index: it never exceeds
    100 - 5|temp - 21|, and it is 0 at 1 degree and below and at 41 degrees
    and above, whatever the humidity and the wind. *)
Theorem comfort_temperature_cap (t h : Q) (wind_speed : Py.num) :
  exists c : Q,
    Simple.calculate_comfort_index (Some t) (Some h) wind_speed = Some c
    /\ ((0 < c)%Q -> (c <= 100 - 5 * Qabs (t - 21))%Q)
    /\ ((t <= 1)%Q \/ (41 <= t)%Q <-> (100 - 5 * Qabs (t - 21) <= 0)%Q)
    /\ ((t <= 1)%Q \/ (41 <= t)%Q -> (c == 0)%Q).
Proof.
  unfold Simple.calculate_comfort_index.
  destruct wind_speed as [w|]; num_simpl; q_abs; q_cases;
    (eexists; split; [reflexivity |]); split_abs;
    (repeat split; try (intros [?|?]); intros; try lra;
     try (destruct (Qlt_le_dec 21 t); [right | left]; lra)).
Qed.

(** ** The outcomes of a run of data_transformation.py *)

Lemma simple_valid_rows_filter (df : list Simple.RawObservation) :
  Simple.valid_rows df
  = (fun r => (Simple.fill_missing r, "VALID"))
      <$> filter (fun r => Simple.quality_flag (Simple.fill_missing r)
                           = "VALID") df.
Proof.
  unfold Simple.valid_rows. induction df as [|r df IH]; [reflexivity |].
  cbn [fmap list_fmap]. rewrite !filter_cons. cbn [snd].
  destruct (decide (Simple.quality_flag (Simple.fill_missing r) = "VALID"))
    as [Hv|Hv].
  - cbn [fmap list_fmap]. rewrite Hv at 1. f_equal. exact IH.
  - exact IH.
Qed.

Lemma simple_flag_cases (r : Simple.RawObservation) :
  Simple.quality_flag r = "VALID"
  \/ Simple.quality_flag r = "EXTREME_TEMPERATURE".
Proof. unfold Simple.quality_flag. destruct (_ || _); auto. Qed.

Lemma simple_split_length (df : list Simple.RawObservation) :
  (length (filter (fun r => Simple.quality_flag (Simple.fill_missing r)
                            = "VALID") df)
   + length (filter (fun r => Simple.quality_flag (Simple.fill_missing r)
                              = "EXTREME_TEMPERATURE") df))%nat
  = length df.
Proof.
  induction df as [|r df IH]; [reflexivity |].
  destruct (simple_flag_cases (Simple.fill_missing r)) as [Hv|Hx].
  - rewrite (filter_cons_True
               (fun r => Simple.quality_flag (Simple.fill_missing r) = "VALID"))
      by exact Hv.
    rewrite filter_cons_False by (rewrite Hv; discriminate).
    cbn [length]. lia.
  - rewrite (filter_cons_True
               (fun r => Simple.quality_flag (Simple.fill_missing r)
                         = "EXTREME_TEMPERATURE")) by exact Hx.
    rewrite filter_cons_False by (rewrite Hx; discriminate).
    cbn [length]. lia.
Qed.

(** The outcome of a run, by what the store and the batch do. *)
Lemma simple_run_cases (s : Simple.Store) :
  (exists e : string,
     Stages.simple_fetch s = Py.Raise e
     /\ Simple.transform_data s
        = {| Simple.result := Simple.failed e; Simple.to_silver := None |})
  \/ (exists (df : list Simple.RawObservation) (msg : string),
        Stages.simple_fetch s = Py.Return df
        /\ Simple.valid_rows df = []
        /\ Simple.transform_data s
           = {| Simple.result := Simple.close_with_warning s msg;
                Simple.to_silver := None |})
  \/ (exists (df : list Simple.RawObservation)
             (rows : list Simple.SilverRow),
        Stages.simple_fetch s = Py.Return df
        /\ Simple.valid_rows df <> []
        /\ rows = (fun rf => Simple.enrich rf.1 rf.2) <$> Simple.valid_rows df
        /\ Simple.to_silver (Simple.transform_data s) = Some rows
        /\ Simple.result (Simple.transform_data s)
           = match (written ← Simple.write_pandas s rows;
                    _ ← Simple.close s; mret written) with
             | Py.Raise e => Simple.failed e
             | Py.Return (true, nrows) =>
                 {[ "status" := Py.VStr "SUCCESS";
                    "bronze_rows" := Py.VInt (Z.of_nat (length df));
                    "silver_rows" := Py.VInt nrows ]}
             | Py.Return (false, _) => Simple.failed "Silver write failed"
             end).
Proof.
  unfold Simple.transform_data.
  change (_ ← Simple.connect s; _ ← Simple.create_silver_tables s;
          Simple.read_sql s) with (Stages.simple_fetch s).
  destruct (Stages.simple_fetch s) as [e|[|r0 df]].
  - left. eauto.
  - right. left. exists [], "No bronze data". auto.
  - destruct (Simple.valid_rows (r0 :: df)) as [|v vs] eqn:Hv.
    + right. left. exists (r0 :: df), "No valid data". auto.
    + right. right. exists (r0 :: df). eexists.
      split; [reflexivity |]. rewrite Hv.
      split; [discriminate |]. split; [reflexivity |]. split; reflexivity.
Qed.



(** X6. Whatever a run of data_transformation.py hands to the writer is
    non-empty, keeps the order of the batch, and accounts for it: the rows
    written and the records flagged EXTREME_TEMPERATURE add up to the batch
    size. *)
Theorem written_rows_account (s : Simple.Store)
    (rows : list Simple.SilverRow) :
  Simple.to_silver (Simple.transform_data s) = Some rows ->
  exists df : list Simple.RawObservation,
    Stages.simple_fetch s = Py.Return df
    /\ rows <> []
    /\ rows = (fun r => Simple.enrich (Simple.fill_missing r) "VALID")
                <$> filter (fun r => Simple.quality_flag (Simple.fill_missing r)
                                     = "VALID") df
    /\ (length rows
        + length (filter (fun r => Simple.quality_flag (Simple.fill_missing r)
                                   = "EXTREME_TEMPERATURE") df))%nat
       = length df.
Proof.
  destruct (simple_run_cases s)
    as [(e & Hf & ->) | [(df & msg & Hf & Hv & ->)
                        | (df & rows' & Hf & Hv & Hrows & -> & _)]];
    [discriminate | discriminate |].
  intros [= <-]. exists df. split; [exact Hf |].
  rewrite simple_valid_rows_filter in Hrows, Hv.
  rewrite <- list_fmap_compose in Hrows. subst rows'.
  split; [| split; [reflexivity |]].
  - intros H. apply fmap_nil_inv in H. rewrite H in Hv. now apply Hv.
  - rewrite length_fmap. apply simple_split_length.
Qed.

(** X6 on the batch of three readings with one at -60 degrees. *)
Lemma written_rows_account_witness :
  exists rows : list Simple.SilverRow,
    Simple.to_silver
      (Simple.transform_data (Scenario.simple_store Scenario.simple_batch))
    = Some rows
    /\ length rows = 2%nat.
Proof.
  eexists. split; [reflexivity |].
  destruct (written_rows_account (Scenario.simple_store Scenario.simple_batch)
              _ eq_refl) as (df & Hf & _ & -> & _).
  injection Hf as <-. reflexivity.
Defined.

(** ** What every enriched row satisfies *)

Ltac label_cases :=
  repeat match goal with
  | |- context [if ?b then _ else _] => destruct b
  end;
  repeat constructor.

Lemma season_label (m : option Z) : Simple.get_season m ∈ Stages.seasons.
Proof. unfold Simple.get_season, Stages.seasons. label_cases. Qed.

Lemma simple_labels (lat temp hum comfort : Py.num) :
  Simple.get_hemisphere lat ∈ "UNKNOWN" :: Stages.hemispheres
  /\ Simple.get_climate_zone lat ∈ "UNKNOWN" :: Stages.climate_zones
  /\ Simple.categorize_temperature temp
     ∈ "UNKNOWN" :: Stages.temperature_categories
  /\ Simple.categorize_humidity hum ∈ "UNKNOWN" :: Stages.humidity_categories
  /\ Simple.categorize_comfort comfort ∈ "UNKNOWN" :: Stages.comfort_levels.
Proof.
  unfold Simple.get_hemisphere, Simple.get_climate_zone,
    Simple.categorize_temperature, Simple.categorize_humidity,
    Simple.categorize_comfort, Stages.hemispheres, Stages.climate_zones,
    Stages.temperature_categories, Stages.humidity_categories,
    Stages.comfort_levels.
  repeat split; label_cases.
Qed.

Lemma simple_unknown_iff (x : Py.num) :
  (Simple.get_hemisphere x = "UNKNOWN" <-> x = None)
  /\ (Simple.get_climate_zone x = "UNKNOWN" <-> x = None)
  /\ (Simple.categorize_temperature x = "UNKNOWN" <-> x = None)
  /\ (Simple.categorize_humidity x = "UNKNOWN" <-> x = None).
Proof.
  unfold Simple.get_hemisphere, Simple.get_climate_zone,
    Simple.categorize_temperature, Simple.categorize_humidity.
  destruct x as [q|]; cbn [Py.isna];
    repeat split; intros; try reflexivity; try discriminate;
    repeat match goal with
    | H : context [if ?b then _ else _] |- _ => destruct b
    end; discriminate.
Qed.

Lemma valid_temperature_range (t : Py.num) (q : Q) :
  ~ SpecWords.extreme t -> t = Some q -> (-50 <= q <= 60)%Q.
Proof.
  intros Hn ->. split.
  - apply Qnot_lt_le. intros H. apply Hn. exists q. auto.
  - apply Qnot_lt_le. intros H. apply Hn. exists q. auto.
Qed.

(** X7. Every row data_transformation.py enriches is VALID, has its wind
    speed, wind direction and cloud cover filled in, carries labels from the
    fixed sets (a label is UNKNOWN exactly when the latitude, temperature or
    humidity it is derived from is absent, and a season is never UNKNOWN), a
    temperature in [-50, 60] if any, and a comfort index in [0, 100] if
    any. *)
Theorem simple_row_invariants (s : Simple.Store) :
  Forall (fun row =>
    Simple.DATA_QUALITY_FLAG row = "VALID"
    /\ (is_Some (Simple.WIND_SPEED row) /\ is_Some (Simple.WIND_DEG row)
        /\ is_Some (Simple.CLOUDS row))
    /\ Simple.SEASON row ∈ Stages.seasons
    /\ (Simple.HEMISPHERE row ∈ "UNKNOWN" :: Stages.hemispheres
        /\ Simple.CLIMATE_ZONE row ∈ "UNKNOWN" :: Stages.climate_zones
        /\ Simple.TEMPERATURE_CATEGORY row
           ∈ "UNKNOWN" :: Stages.temperature_categories
        /\ Simple.HUMIDITY_CATEGORY row
           ∈ "UNKNOWN" :: Stages.humidity_categories
        /\ Simple.COMFORT_LEVEL row ∈ "UNKNOWN" :: Stages.comfort_levels)
    /\ ((Simple.HEMISPHERE row = "UNKNOWN" <-> Simple.LATITUDE row = None)
        /\ (Simple.CLIMATE_ZONE row = "UNKNOWN"
            <-> Simple.LATITUDE row = None)
        /\ (Simple.TEMPERATURE_CATEGORY row = "UNKNOWN"
            <-> Simple.TEMPERATURE row = None)
        /\ (Simple.HUMIDITY_CATEGORY row = "UNKNOWN"
            <-> Simple.HUMIDITY row = None))
    /\ (forall t : Q, Simple.TEMPERATURE row = Some t -> (-50 <= t <= 60)%Q)
    /\ (forall c : Q, Simple.COMFORT_INDEX row = Some c -> (0 <= c <= 100)%Q))
    (Simple.enriched s).
Proof.
  apply Forall_forall. intros row Hin.
  apply simple_enriched_inv in Hin as (df & r & _ & _ & Hv & ->).
  cbn [Simple.enrich Simple.DATA_QUALITY_FLAG Simple.WIND_SPEED Simple.WIND_DEG
       Simple.CLOUDS Simple.SEASON Simple.HEMISPHERE Simple.CLIMATE_ZONE
       Simple.TEMPERATURE_CATEGORY Simple.HUMIDITY_CATEGORY
       Simple.COMFORT_LEVEL Simple.LATITUDE Simple.TEMPERATURE Simple.HUMIDITY
       Simple.COMFORT_INDEX Simple.fill_missing Simple.wind_speed
       Simple.wind_deg Simple.clouds Simple.latitude Simple.temperature
       Simple.humidity].
  split; [reflexivity |].
  split; [rewrite !fillna_default; repeat split; eauto |].
  split; [apply season_label |].
  split; [apply simple_labels |].
  split; [| split].
  - pose proof (simple_unknown_iff (Simple.latitude r)) as (H1 & H2 & _ & _).
    pose proof (simple_unknown_iff (Simple.temperature r)) as (_ & _ & H3 & _).
    pose proof (simple_unknown_iff (Simple.humidity r)) as (_ & _ & _ & H4).
    auto.
  - intros t Ht. apply (valid_temperature_range _ _ (proj1 (proj2
      (simple_quality_flag_spec (Simple.fill_missing r))) Hv) Ht).
  - intros c Hc.
    destruct (Simple.temperature r) as [t|] eqn:Ht;
      [| cbn in Hc; discriminate].
    destruct (Simple.humidity r) as [h|] eqn:Hh;
      [| cbn in Hc; discriminate].
    destruct (comfort_index_Some t h (Py.fillna 0 (Simple.wind_speed r)))
      as (c' & Hc' & _ & Hrange).
    rewrite Hc' in Hc. injection Hc as <-. exact Hrange.
Qed.

Lemma checkpoint_labels (lat temp hum comfort score : Py.num) :
  Checkpoint.get_hemisphere lat ∈ Stages.hemispheres
  /\ Checkpoint.get_climate_zone lat ∈ Stages.climate_zones
  /\ Checkpoint.categorize_temperature temp ∈ Stages.temperature_categories
  /\ Checkpoint.categorize_humidity hum ∈ Stages.humidity_categories
  /\ Checkpoint.categorize_comfort comfort
     ∈ "UNKNOWN" :: Stages.comfort_levels
  /\ Checkpoint.categorize_severity score ∈ Stages.severity_levels.
Proof.
  unfold Checkpoint.get_hemisphere, Checkpoint.get_climate_zone,
    Checkpoint.categorize_temperature, Checkpoint.categorize_humidity,
    Checkpoint.categorize_comfort, Checkpoint.categorize_severity,
    Stages.hemispheres, Stages.climate_zones, Stages.temperature_categories,
    Stages.humidity_categories, Stages.comfort_levels, Stages.severity_levels.
  repeat split; label_cases.
Qed.

(** X8. Every row the checkpoint script enriches is VALID, has its wind
    speed, wind direction and cloud coverage filled in, and carries labels
    from the fixed sets; its hemisphere, climate zone, temperature category,
    humidity category, season and severity level are never UNKNOWN, whatever
    is absent. *)
Theorem checkpoint_row_invariants (s : Checkpoint.Store) :
  Forall (fun row =>
    Checkpoint.DATA_QUALITY_FLAG row = "VALID"
    /\ (is_Some (Checkpoint.WIND_SPEED (Checkpoint.clean row))
        /\ is_Some (Checkpoint.WIND_DEG (Checkpoint.clean row))
        /\ is_Some (Checkpoint.CLOUD_COVERAGE (Checkpoint.clean row)))
    /\ Checkpoint.SEASON row ∈ Stages.seasons
    /\ Checkpoint.HEMISPHERE row ∈ Stages.hemispheres
    /\ Checkpoint.CLIMATE_ZONE row ∈ Stages.climate_zones
    /\ Checkpoint.TEMPERATURE_CATEGORY row ∈ Stages.temperature_categories
    /\ Checkpoint.HUMIDITY_CATEGORY row ∈ Stages.humidity_categories
    /\ Checkpoint.COMFORT_LEVEL row ∈ "UNKNOWN" :: Stages.comfort_levels
    /\ Checkpoint.SEVERITY_LEVEL row ∈ Stages.severity_levels
    /\ (forall t : Q,
          Checkpoint.TEMPERATURE (Checkpoint.clean row) = Some t ->
          (-50 <= t <= 60)%Q))
    (Checkpoint.enriched s).
Proof.
  apply Forall_forall. intros row Hin.
  apply checkpoint_enriched_inv in Hin as (df & r & ts & _ & _ & Hv & _ & ->).
  cbn [Checkpoint.enrich Checkpoint.DATA_QUALITY_FLAG Checkpoint.clean
       Checkpoint.SEASON Checkpoint.HEMISPHERE Checkpoint.CLIMATE_ZONE
       Checkpoint.TEMPERATURE_CATEGORY Checkpoint.HUMIDITY_CATEGORY
       Checkpoint.COMFORT_LEVEL Checkpoint.SEVERITY_LEVEL
       Checkpoint.fill_missing Checkpoint.WIND_SPEED Checkpoint.WIND_DEG
       Checkpoint.CLOUD_COVERAGE Checkpoint.TEMPERATURE Checkpoint.HUMIDITY
       Checkpoint.LATITUDE].
  split; [reflexivity |].
  split; [rewrite !fillna_default; repeat split; eauto |].
  split; [apply season_label |].
  pose proof (checkpoint_labels (Checkpoint.LATITUDE r)
                (Checkpoint.TEMPERATURE r) (Checkpoint.HUMIDITY r)
                (Checkpoint.calculate_comfort_index (Checkpoint.TEMPERATURE r)
                   (Checkpoint.HUMIDITY r)
                   (Py.fillna 0 (Checkpoint.WIND_SPEED r)))
                (Checkpoint.severity_score (Checkpoint.TEMPERATURE r)
                   (Py.fillna 0 (Checkpoint.WIND_SPEED r))
                   (Checkpoint.HUMIDITY r)
                   (Py.fillna 0 (Checkpoint.CLOUD_COVERAGE r))))
    as (H1 & H2 & H3 & H4 & H5 & H6).
  repeat (split; [assumption |]).
  intros t Ht. apply (valid_temperature_range _ _ (proj1 (proj2
    (checkpoint_quality_flag_spec (Checkpoint.fill_missing r))) Hv) Ht).
Qed.

Lemma severity_score_None (t w h c : Py.num) :
  Checkpoint.severity_score t w h c = None
  <-> t = None \/ w = None \/ h = None \/ c = None.
Proof.
  unfold Checkpoint.severity_score.
  destruct t, w, h, c; cbn; split; intros H; try reflexivity;
    try discriminate; auto; destruct H as [?|[?|[?|?]]]; discriminate.
Qed.

(** X9. In the checkpoint script a row has a NaN severity score exactly when
    its temperature or humidity is absent, and such a row is labelled with
    severity EXTREME and comfort UNKNOWN. *)
Theorem severity_of_incomplete_rows (s : Checkpoint.Store) :
  Forall (fun row =>
    (Checkpoint.WEATHER_SEVERITY_SCORE row = None
     <-> Checkpoint.TEMPERATURE (Checkpoint.clean row) = None
         \/ Checkpoint.HUMIDITY (Checkpoint.clean row) = None)
    /\ (Checkpoint.WEATHER_SEVERITY_SCORE row = None ->
        Checkpoint.SEVERITY_LEVEL row = "EXTREME"
        /\ Checkpoint.COMFORT_LEVEL row = "UNKNOWN"
        /\ Checkpoint.COMFORT_INDEX row = None))
    (Checkpoint.enriched s).
Proof.
  apply Forall_forall. intros row Hin.
  apply checkpoint_enriched_inv in Hin as (df & r & ts & _ & _ & _ & _ & ->).
  cbn [Checkpoint.enrich Checkpoint.WEATHER_SEVERITY_SCORE Checkpoint.clean
       Checkpoint.SEVERITY_LEVEL Checkpoint.COMFORT_LEVEL
       Checkpoint.COMFORT_INDEX Checkpoint.fill_missing Checkpoint.TEMPERATURE
       Checkpoint.HUMIDITY Checkpoint.WIND_SPEED Checkpoint.CLOUD_COVERAGE].
  rewrite severity_score_None, !fillna_default.
  assert (Hiff : Checkpoint.TEMPERATURE r = None
                 \/ Some (default 0%Q (Checkpoint.WIND_SPEED r)) = None
                 \/ Checkpoint.HUMIDITY r = None
                 \/ Some (default 0%Q (Checkpoint.CLOUD_COVERAGE r)) = None
                 <-> Checkpoint.TEMPERATURE r = None
                     \/ Checkpoint.HUMIDITY r = None).
  { split; [intros [?|[?|[?|?]]] | intros [?|?]]; auto; discriminate. }
  split; [exact Hiff |]. intros H. apply Hiff in H.
  assert (Hnan : Checkpoint.severity_score (Checkpoint.TEMPERATURE r)
                   (Some (default 0%Q (Checkpoint.WIND_SPEED r)))
                   (Checkpoint.HUMIDITY r)
                   (Some (default 0%Q (Checkpoint.CLOUD_COVERAGE r))) = None)
    by (apply severity_score_None; tauto).
  assert (Hidx : Checkpoint.calculate_comfort_index (Checkpoint.TEMPERATURE r)
                   (Checkpoint.HUMIDITY r)
                   (Some (default 0%Q (Checkpoint.WIND_SPEED r))) = None)
    by (apply comfort_index_None; exact H).
  rewrite Hnan, Hidx. repeat split.
Qed.

(** ** Timestamps in the checkpoint script *)

Lemma mapM_Raise {A B : Type} (f : A -> Py.exc B) (l : list A) (x : A)
    (e : string) :
  x ∈ l -> f x = Py.Raise e -> exists e' : string, mapM f l = Py.Raise e'.
Proof.
  intros Hin Hx. induction l as [|y l IH]; [inversion Hin |].
  apply elem_of_cons in Hin as [<-|Hin].
  - exists e. cbn. now rewrite Hx.
  - destruct (IH Hin) as (e' & He'). cbn.
    destruct (f y) as [e0|b]; cbn; [eauto |]. rewrite He'. cbn. eauto.
Qed.

Lemma checkpoint_valid_rows_elem (df : list Checkpoint.RawObservation)
    (r : Checkpoint.RawObservation) :
  r ∈ df -> Checkpoint.quality_flag (Checkpoint.fill_missing r) = "VALID" ->
  (Checkpoint.fill_missing r, "VALID") ∈ Checkpoint.valid_rows df.
Proof.
  intros Hin Hv. unfold Checkpoint.valid_rows.
  apply list_elem_of_filter. split; [reflexivity |].
  apply list_elem_of_fmap. exists (Checkpoint.fill_missing r). split.
  - now rewrite Hv.
  - apply list_elem_of_fmap. eauto.
Qed.

(** X10. In the checkpoint script one valid record whose timestamp is text
    that does not parse fails the whole run: the status is FAILED, nothing
    is handed to the silver writer and the aggregation is not run. *)
Theorem checkpoint_timestamp_failure (s : Checkpoint.Store)
    (df : list Checkpoint.RawObservation) (r : Checkpoint.RawObservation)
    (text : string) :
  Stages.checkpoint_fetch s = Py.Return df ->
  r ∈ df ->
  Checkpoint.quality_flag (Checkpoint.fill_missing r) = "VALID" ->
  Checkpoint.TIMESTAMP r = Py.TsText text ->
  Stages.status (Checkpoint.result (Checkpoint.transform_data s))
  = Some (Py.VStr "FAILED")
  /\ Checkpoint.to_silver (Checkpoint.transform_data s) = None
  /\ Checkpoint.daily (Checkpoint.transform_data s) = None.
Proof.
  intros Hf Hin Hv Hts. unfold Checkpoint.transform_data.
  change (_ ← Checkpoint.connect s; _ ← Checkpoint.create_silver_tables s;
          Checkpoint.read_sql s) with (Stages.checkpoint_fetch s).
  rewrite Hf. destruct df as [|r0 df]; [inversion Hin |].
  pose proof (checkpoint_valid_rows_elem _ _ Hin Hv) as Hrow.
  destruct (mapM_Raise
              (fun rf : Checkpoint.RawObservation * string =>
                 ts ← Py.to_datetime (Checkpoint.TIMESTAMP rf.1);
                 mret (Checkpoint.enrich rf.1 rf.2 ts))
              _ _ ("Unknown datetime string format, unable to parse: " ++ text)
              Hrow) as (e & He).
  { cbn. rewrite Hts. reflexivity. }
  unfold Checkpoint.enrich_all. rewrite He.
  split; [apply status_lookup | split; reflexivity].
Qed.

(** X10 on a batch whose second reading carries an unreadable timestamp;
    data_transformation.py enriches the same reading. *)
Lemma checkpoint_timestamp_failure_witness :
  Stages.status
    (Checkpoint.result
       (Checkpoint.transform_data
          (Scenario.checkpoint_store
             [Scenario.checkpoint_obs (Some 21%Q) (Some 5%Q) (Some 51.5%Q)
                (Py.TsValue Scenario.noon);
              Scenario.checkpoint_obs (Some 10%Q) (Some 5%Q) (Some 51.5%Q)
                (Py.TsText "yesterday")])))
  = Some (Py.VStr "FAILED")
  /\ length
       (Simple.enriched
          (Scenario.simple_store
             [Scenario.simple_obs (Some 21%Q) (Some 5%Q) (Some 51.5%Q)
                (Py.TsValue Scenario.noon);
              Scenario.simple_obs (Some 10%Q) (Some 5%Q) (Some 51.5%Q)
                (Py.TsText "yesterday")]))
     = 2%nat.
Proof.
  split; [| reflexivity].
  eapply (checkpoint_timestamp_failure _ _
            (Scenario.checkpoint_obs (Some 10%Q) (Some 5%Q) (Some 51.5%Q)
               (Py.TsText "yesterday")) "yesterday").
  - reflexivity.
  - apply list_elem_of_further, list_elem_of_here.
  - reflexivity.
  - reflexivity.
Defined.

(** X11. With cloud coverage at most 100 the severity score is 0 exactly at
    21 degrees, wind speed 5, humidity 50 and full cloud cover; a reading
    whose wind speed and cloud coverage were missing (both filled with 0)
    scores at least 0.175. *)
Theorem severity_minimum (t w h c : Q) :
  exists score : Q,
    Checkpoint.severity_score (Some t) (Some w) (Some h) (Some c) = Some score
    /\ ((c <= 100)%Q ->
        ((score == 0)%Q
         <-> (t == 21)%Q /\ (w == 5)%Q /\ (h == 50)%Q /\ (c == 100)%Q))
    /\ ((w == 0)%Q -> (c == 0)%Q -> (0.175 <= score)%Q).
Proof.
  unfold Checkpoint.severity_score. num_simpl.
  eexists. split; [reflexivity |].
  q_abs. q_div. split_abs;
    (split; [intros Hc; split; [intros Hs; repeat split; lra | intros (? & ? & ? & ?); lra]
            | intros Hw Hc; lra]).
Qed.

(** ** The groups of the daily aggregation *)

Lemma lex_opp (a b : comparison) :
  Checkpoint.lex (CompOpp a) (CompOpp b) = CompOpp (Checkpoint.lex a b).
Proof. now destruct a. Qed.

Lemma key_compare_antisym (k1 k2 : Checkpoint.GroupKey) :
  Checkpoint.key_compare k2 k1 = CompOpp (Checkpoint.key_compare k1 k2).
Proof.
  unfold Checkpoint.key_compare, Checkpoint.date_compare.
  rewrite <- !lex_opp, <- !Z.compare_antisym, <- !String.compare_antisym.
  reflexivity.
Qed.

Lemma key_le_total : Total Checkpoint.key_le.
Proof.
  intros k1 k2. unfold Checkpoint.key_le.
  rewrite (key_compare_antisym k1 k2).
  destruct (Checkpoint.key_compare k1 k2); cbn; [left | left | right];
    discriminate.
Qed.

Lemma group_members_filter (k : Checkpoint.GroupKey)
    (df : list Checkpoint.SilverRow) :
  (filter (fun kr => kr.1 = k)
     (omap (fun r => (fun k => (k, r)) <$> Checkpoint.key_of r) df)).*2
  = filter (fun r => Checkpoint.key_of r = Some k) df.
Proof.
  induction df as [|r df IH]; [reflexivity |].
  rewrite (filter_cons (fun r => Checkpoint.key_of r = Some k)).
  cbn [omap list_omap]. destruct (Checkpoint.key_of r) as [k'|] eqn:Hk.
  - cbn [fmap option_fmap option_map]. rewrite filter_cons. cbn [fst].
    destruct (decide (k' = k)) as [->|Hne].
    + destruct (decide (Some k = Some k)); [| congruence].
      cbn. f_equal. exact IH.
    + destruct (decide (Some k' = Some k)); [congruence | exact IH].
  - cbn [fmap option_fmap option_map].
    destruct (decide (None = Some k)); [discriminate | exact IH].
Qed.

Lemma fst_tagged {K B : Type} (g : K -> B) (l : list K) :
  ((fun k => (k, g k)) <$> l).*1 = l.
Proof. induction l as [|k l IH]; cbn; [reflexivity | now rewrite IH]. Qed.

Lemma groupby_keys_sorted (df : list Checkpoint.SilverRow) :
  (Checkpoint.groupby df).*1
  = merge_sort Checkpoint.key_le
      (remove_dups
         (omap (fun r => (fun k => (k, r)) <$> Checkpoint.key_of r) df).*1).
Proof. unfold Checkpoint.groupby. apply fst_tagged. Qed.

Lemma groupby_keys (df : list Checkpoint.SilverRow) (k : Checkpoint.GroupKey) :
  k ∈ (Checkpoint.groupby df).*1
  <-> exists r : Checkpoint.SilverRow, r ∈ df /\ Checkpoint.key_of r = Some k.
Proof.
  rewrite groupby_keys_sorted.
  rewrite merge_sort_Permutation, elem_of_remove_dups, list_elem_of_fmap.
  split.
  - intros ([k' r] & -> & Hin). apply list_elem_of_omap in Hin as (r' & Hr & Hk).
    destruct (Checkpoint.key_of r') as [k''|] eqn:Hk'; [| discriminate].
    injection Hk as <- <-. eauto.
  - intros (r & Hr & Hk). exists (k, r). split; [reflexivity |].
    apply list_elem_of_omap. exists r. split; [exact Hr |]. now rewrite Hk.
Qed.

(** X12. The daily aggregation forms exactly one group per key that occurs
    in the batch, in ascending key order; a group is never empty and holds,
    in batch order, exactly the rows with its key; a row with a null city
    id, city name, country code or date is in no group. *)
Theorem groupby_partition (df : list Checkpoint.SilverRow) :
  NoDup (Checkpoint.groupby df).*1
  /\ Sorted Checkpoint.key_le (Checkpoint.groupby df).*1
  /\ (forall k : Checkpoint.GroupKey,
        k ∈ (Checkpoint.groupby df).*1
        <-> exists r : Checkpoint.SilverRow,
              r ∈ df /\ Checkpoint.key_of r = Some k)
  /\ Forall (fun g =>
       g.2 <> []
       /\ g.2 = filter (fun r => Checkpoint.key_of r = Some g.1) df)
       (Checkpoint.groupby df)
  /\ (forall r : Checkpoint.SilverRow,
        Checkpoint.key_of r = None ->
        Forall (fun g => r ∉ g.2) (Checkpoint.groupby df)).
Proof.
  pose proof (groupby_keys_sorted df) as Hkeys.
  assert (Hgroups : Forall (fun g =>
            g.2 <> []
            /\ g.2 = filter (fun r => Checkpoint.key_of r = Some g.1) df)
            (Checkpoint.groupby df)).
  { apply Forall_forall. intros g Hg.
    assert (Hk : g.1 ∈ (Checkpoint.groupby df).*1)
      by (apply list_elem_of_fmap; eauto).
    apply groupby_keys in Hk as (r & Hr & Hkr).
    unfold Checkpoint.groupby in Hg.
    apply list_elem_of_fmap in Hg as (k & -> & _). cbn [fst snd] in *.
    rewrite group_members_filter. split; [| reflexivity].
    intros Hnil.
    assert (Hin : r ∈ filter (fun r => Checkpoint.key_of r = Some k) df)
      by (apply list_elem_of_filter; auto).
    rewrite Hnil in Hin. inversion Hin. }
  split; [rewrite Hkeys, merge_sort_Permutation; apply NoDup_remove_dups |].
  split; [rewrite Hkeys; apply Sorted_merge_sort, key_le_total |].
  split; [intros k; apply groupby_keys |].
  split; [exact Hgroups |].
  intros r Hnone. apply Forall_forall. intros g Hg Hin.
  apply (proj1 (Forall_forall _ _) Hgroups) in Hg as [_ Heq].
  rewrite Heq in Hin. apply list_elem_of_filter in Hin as [Hk _].
  congruence.
Qed.

(** ** The aggregates of a group *)

Lemma foldl_smallest (x : Q) (xs : list Q) :
  let m := foldl (fun m y => if Qle_bool m y then m else y) x xs in
  (m <= x)%Q /\ Forall (fun y => (m <= y)%Q) xs /\ m ∈ x :: xs.
Proof.
  cbv zeta. revert x. induction xs as [|y xs IH]; intros x; cbn [foldl].
  - split; [apply Qle_refl |]. split; [constructor | apply list_elem_of_here].
  - destruct (Qleb_spec x y) as [Hxy|Hxy].
    + destruct (IH x) as (Hx & Hall & Hin). split; [exact Hx |].
      split; [constructor; [lra | exact Hall] |].
      apply elem_of_cons in Hin as [->|Hin];
        [apply list_elem_of_here | now do 2 apply list_elem_of_further].
    + destruct (IH y) as (Hy & Hall & Hin). split; [lra |].
      split; [constructor; [exact Hy | exact Hall] |].
      now apply list_elem_of_further.
Qed.

Lemma foldl_largest (x : Q) (xs : list Q) :
  let m := foldl (fun m y => if Qle_bool y m then m else y) x xs in
  (x <= m)%Q /\ Forall (fun y => (y <= m)%Q) xs /\ m ∈ x :: xs.
Proof.
  cbv zeta. revert x. induction xs as [|y xs IH]; intros x; cbn [foldl].
  - split; [apply Qle_refl |]. split; [constructor | apply list_elem_of_here].
  - destruct (Qleb_spec y x) as [Hxy|Hxy].
    + destruct (IH x) as (Hx & Hall & Hin). split; [exact Hx |].
      split; [constructor; [lra | exact Hall] |].
      apply elem_of_cons in Hin as [->|Hin];
        [apply list_elem_of_here | now do 2 apply list_elem_of_further].
    + destruct (IH y) as (Hy & Hall & Hin). split; [lra |].
      split; [constructor; [exact Hy | exact Hall] |].
      now apply list_elem_of_further.
Qed.

Lemma Qsum_squares_nonneg (m : Q) (xs : list Q) :
  (0 <= Checkpoint.Qsum ((fun x => (x - m) * (x - m))%Q <$> xs))%Q.
Proof.
  induction xs as [|x xs IH]; cbn; [lra |].
  change (foldr Qplus 0%Q ((fun x => (x - m) * (x - m))%Q <$> xs))
    with (Checkpoint.Qsum ((fun x => (x - m) * (x - m))%Q <$> xs)).
  assert (Hsq : (0 <= (x - m) * (x - m))%Q)
    by (generalize (x - m)%Q; intros d; nra).
  lra.
Qed.

Lemma values_elem (l : list Py.num) (q : Q) :
  q ∈ Checkpoint.values l <-> Some q ∈ l.
Proof.
  unfold Checkpoint.values. rewrite list_elem_of_omap. split.
  - intros ([x|] & Hin & [=]). now subst.
  - intros Hin. exists (Some q). auto.
Qed.

(** The reductions of one column of a group.  Minimum and maximum are
    readings of the column; the mean is not compared with them, since a
    rounded mean may leave the interval they span. *)
Lemma column_reductions (l : list Py.num) :
  (0 <= Checkpoint.count l <= Z.of_nat (length l))%Z
  /\ (Checkpoint.mean l = None <-> Checkpoint.count l = 0%Z)
  /\ (Checkpoint.smallest Qle_bool l = None <-> Checkpoint.count l = 0%Z)
  /\ (Checkpoint.largest Qle_bool l = None <-> Checkpoint.count l = 0%Z)
  /\ (Checkpoint.variance l = None <-> (Checkpoint.count l < 2)%Z)
  /\ (forall lo hi : Q,
        Checkpoint.smallest Qle_bool l = Some lo ->
        Checkpoint.largest Qle_bool l = Some hi ->
        Some lo ∈ l /\ Some hi ∈ l
        /\ forall q : Q, Some q ∈ l -> (lo <= q <= hi)%Q)
  /\ (forall v : Q, Checkpoint.variance l = Some v -> (0 <= v)%Q).
Proof.
  assert (Hlen : (length (Checkpoint.values l) <= length l)%nat).
  { unfold Checkpoint.values. induction l as [|[q|] l IH]; cbn; lia. }
  pose proof (values_elem l) as Hel.
  unfold Checkpoint.count, Checkpoint.mean, Checkpoint.smallest,
    Checkpoint.largest, Checkpoint.variance, Checkpoint.mean.
  destruct (Checkpoint.values l) as [|x xs] eqn:Hvals.
  - cbn. repeat split; intros; try discriminate; try lia.
  - split; [cbn [length] in *; lia |].
    split; [split; [discriminate | cbn [length]; lia] |].
    split; [split; [discriminate | cbn [length]; lia] |].
    split; [split; [discriminate | cbn [length]; lia] |].
    split; [| split].
    + destruct xs as [|y xs]; cbn [length].
      * split; [intros _; lia | reflexivity].
      * split; [discriminate | lia].
    + intros lo hi [= <-] [= <-].
      destruct (foldl_smallest x xs) as (Hx & Hlo & Hinlo).
      destruct (foldl_largest x xs) as (Hx' & Hhi & Hinhi).
      split; [now apply Hel |]. split; [now apply Hel |].
      intros q Hq. apply Hel in Hq.
      apply elem_of_cons in Hq as [->|Hq]; [split; assumption |].
      split.
      * exact (proj1 (Forall_forall _ _) Hlo q Hq).
      * exact (proj1 (Forall_forall _ _) Hhi q Hq).
    + destruct xs as [|y xs]; [discriminate |].
      set (zs := x :: y :: xs) in *.
      assert (Hn1 : (0 < inject_Z (Z.of_nat (length zs) - 1))%Q).
      { change 0%Q with (inject_Z 0). rewrite <- Zlt_Qlt. cbn. lia. }
      intros v [= <-]. apply Qle_shift_div_l; [exact Hn1 |].
      rewrite Qmult_0_l.
      exact (Qsum_squares_nonneg
               (Checkpoint.Qsum zs / inject_Z (Z.of_nat (length zs))) zs).
Qed.


(** X14. The daily categories: temperature stability is UNKNOWN for a NaN
    standard deviation, hence for every group with fewer than two
    temperature readings, STABLE for a standard deviation below 2 (variance
    below 4), MODERATE below 5 (variance below 25) and VARIABLE from there
    on; the comfort category is UNKNOWN for a NaN mean, COMFORTABLE from 70
    on, MODERATE from 50 on and UNCOMFORTABLE below. *)
Theorem daily_categories :
  Checkpoint.categorize_stability (Checkpoint.CRoot None)
  = Py.Return (Checkpoint.CText (Some "UNKNOWN"))
  /\ (forall temps : list Py.num,
        Checkpoint.categorize_stability
          (Checkpoint.CRoot (Checkpoint.variance temps))
        = Py.Return (Checkpoint.CText (Some "UNKNOWN"))
        <-> (Checkpoint.count temps < 2)%Z)
  /\ (forall v : Q,
        exists label : string,
          Checkpoint.categorize_stability (Checkpoint.CRoot (Some v))
          = Py.Return (Checkpoint.CText (Some label))
          /\ (label = "STABLE" <-> (v < 4)%Q)
          /\ (label = "MODERATE" <-> (4 <= v < 25)%Q)
          /\ (label = "VARIABLE" <-> (25 <= v)%Q))
  /\ Checkpoint.categorize_daily_comfort (Checkpoint.CFloat None)
     = Py.Return (Checkpoint.CText (Some "UNKNOWN"))
  /\ (forall m : Q,
        exists label : string,
          Checkpoint.categorize_daily_comfort (Checkpoint.CFloat (Some m))
          = Py.Return (Checkpoint.CText (Some label))
          /\ (label = "COMFORTABLE" <-> (70 <= m)%Q)
          /\ (label = "MODERATE" <-> (50 <= m < 70)%Q)
          /\ (label = "UNCOMFORTABLE" <-> (m < 50)%Q)).
Proof.
  assert (Hstab : forall v : Q,
            exists label : string,
              Checkpoint.categorize_stability (Checkpoint.CRoot (Some v))
              = Py.Return (Checkpoint.CText (Some label))
              /\ (label = "STABLE" <-> (v < 4)%Q)
              /\ (label = "MODERATE" <-> (4 <= v < 25)%Q)
              /\ (label = "VARIABLE" <-> (25 <= v)%Q)).
  { intros v. unfold Checkpoint.categorize_stability, Checkpoint.cell_lt.
    cbn [Checkpoint.cell_isna Py.isna mbind Py.exc_bind]. num_simpl.
    q_cases; (eexists; split; [reflexivity |]);
      repeat split; intros; try reflexivity; try discriminate; lra. }
  split; [reflexivity |]. split; [| split; [exact Hstab |]].
  - intros temps.
    destruct (column_reductions temps) as (_ & _ & _ & _ & Hvar & _ & _).
    rewrite <- Hvar.
    destruct (Checkpoint.variance temps) as [v|]; [| split; reflexivity].
    destruct (Hstab v) as (label & -> & H1 & H2 & H3).
    split; [| discriminate]. intros [= ->].
    exfalso. destruct (Qlt_le_dec v 4) as [Hlt|Hge].
    + apply H1 in Hlt. discriminate.
    + destruct (Qlt_le_dec v 25) as [Hlt|Hge'].
      * assert (H : "UNKNOWN" = "MODERATE") by (apply H2; split; assumption).
        discriminate.
      * apply H3 in Hge'. discriminate.
  - split; [reflexivity |].
    intros m. unfold Checkpoint.categorize_daily_comfort, Checkpoint.cell_ge.
    cbn [Checkpoint.cell_isna Py.isna mbind Py.exc_bind]. num_simpl.
    q_cases; (eexists; split; [reflexivity |]);
      repeat split; intros; try reflexivity; try discriminate; lra.
Qed.

(** ** The ingestion loop of [weather_ingestion.py] *)

Lemma ingest_city_stored {Reading : Type} (sv : Ingestion.Service Reading)
    (s f : Z) (call : nat * Ingestion.City) :
  Ingestion.ingest_city sv (s, f) call
  = if Ingestion.stored sv call then ((s + 1)%Z, f) else (s, (f + 1)%Z).
Proof.
  unfold Ingestion.ingest_city, Ingestion.stored.
  destruct (Ingestion.fetch_weather_data sv call.1 call.2) as [d|];
    [| reflexivity].
  now destruct (Ingestion.insert_into_snowflake sv call.1 d).
Qed.

Lemma ingest_loop_counts {Reading : Type} (sv : Ingestion.Service Reading)
    (calls : list (nat * Ingestion.City)) (s f : Z) :
  let kept :=
    Z.of_nat (length (filter (fun call => Ingestion.stored sv call = true)
                        calls)) in
  foldl (Ingestion.ingest_city sv) (s, f) calls
  = ((s + kept)%Z, (f + (Z.of_nat (length calls) - kept))%Z).
Proof.
  cbv zeta. revert s f.
  induction calls as [|call calls IH]; intros s f.
  - cbn. f_equal; lia.
  - cbn [foldl]. rewrite ingest_city_stored, filter_cons.
    destruct (Ingestion.stored sv call) eqn:Hs.
    + rewrite decide_True by reflexivity. rewrite IH.
      cbn [length]. f_equal; lia.
    + rewrite decide_False by discriminate. rewrite IH.
      cbn [length]. f_equal; lia.
Qed.

(** X15. [ingest_data] of weather_ingestion.py.  A failing API probe,
    connection, table creation or close gives the FAILED result with the
    message of the first one that raised.  Otherwise the result is SUCCESS
    whatever happened to the single cities: cities_processed is the length
    of the city list, successful_inserts counts the cities whose reading was
    fetched and inserted, and successful_inserts + failed_inserts =
    cities_processed. *)
Theorem ingest_data_counts {Reading : Type}
    (sv : Ingestion.Service Reading) :
  let cities := Ingestion.get_cities_from_snowflake sv in
  match (_ ← Ingestion.api_test sv; _ ← Ingestion.connect sv;
         _ ← Ingestion.create_bronze_table sv; Ingestion.close sv) with
  | Py.Raise e => Ingestion.ingest_data sv = Ingestion.failed e
  | Py.Return _ =>
      exists successful_inserts failed_inserts : Z,
        Ingestion.ingest_data sv
        = {[ "status" := Py.VStr "SUCCESS";
             "cities_processed" := Py.VInt (Z.of_nat (length cities));
             "successful_inserts" := Py.VInt successful_inserts;
             "failed_inserts" := Py.VInt failed_inserts ]}
        /\ successful_inserts
           = Z.of_nat
               (length (filter (fun call => Ingestion.stored sv call = true)
                          (imap pair cities)))
        /\ (successful_inserts + failed_inserts
            = Z.of_nat (length cities))%Z
        /\ (0 <= successful_inserts)%Z /\ (0 <= failed_inserts)%Z
  end.
Proof.
  cbv zeta. unfold Ingestion.ingest_data.
  destruct (Ingestion.api_test sv) as [e|[]]; cbn [mbind Py.exc_bind];
    [reflexivity |].
  destruct (Ingestion.connect sv) as [e|[]]; cbn [mbind Py.exc_bind];
    [reflexivity |].
  destruct (Ingestion.create_bronze_table sv) as [e|[]];
    cbn [mbind Py.exc_bind]; [reflexivity |].
  rewrite ingest_loop_counts.
  set (calls := imap pair (Ingestion.get_cities_from_snowflake sv)).
  assert (Hlen : length calls
                 = length (Ingestion.get_cities_from_snowflake sv))
    by apply length_imap.
  pose proof (length_filter
                (fun call => Ingestion.stored sv call = true) calls) as Hle.
  destruct (Ingestion.close sv) as [e|[]]; [reflexivity |].
  eexists _, _. split; [reflexivity |]. repeat split; lia.
Qed.

(** ** The ingestion of [weather_ingestion-checkpoint.py] *)

Lemma fetch_all_answers {Record_ : Type}
    (sv : IngestionCheckpoint.Service Record_)
    (calls : list (nat * IngestionCheckpoint.City))
    (all_records : list Record_) (s f : Z) :
  IngestionCheckpoint.fetch_all sv calls (all_records, s, f)
  = match mapM (fun call : nat * IngestionCheckpoint.City =>
                  IngestionCheckpoint.fetch_current_weather sv call.1 call.2)
            calls with
    | Py.Raise e => Py.Raise e
    | Py.Return answers =>
        Py.Return ((all_records ++ omap id answers)%list,
                   (s + Z.of_nat (length (omap id answers)))%Z,
                   (f + (Z.of_nat (length answers)
                         - Z.of_nat (length (omap id answers))))%Z)
    end.
Proof.
  revert all_records s f.
  induction calls as [|call calls IH]; intros all_records s f.
  - cbn. rewrite app_nil_r. do 2 f_equal; first [lia | f_equal; lia].
  - cbn [IngestionCheckpoint.fetch_all mapM].
    change (mapM ?g (call :: calls))
      with (y ← g call; k ← mapM g calls; mret (y :: k)).
    destruct (IngestionCheckpoint.fetch_current_weather sv call.1 call.2)
      as [e|[r|]]; cbn [mbind Py.exc_bind]; [reflexivity | |].
    + rewrite IH. destruct (mapM _ calls) as [e|answers];
        cbn [mbind Py.exc_bind mret Py.exc_ret]; [reflexivity |].
      change (omap id (Some r :: answers)) with (r :: omap id answers).
      cbn [length]. rewrite <- app_assoc. cbn [app].
      do 2 f_equal; first [lia | f_equal; lia].
    + rewrite IH. destruct (mapM _ calls) as [e|answers];
        cbn [mbind Py.exc_bind mret Py.exc_ret]; [reflexivity |].
      change (omap id (None :: answers)) with (omap id answers).
      cbn [length]. do 2 f_equal; first [lia | f_equal; lia].
Qed.

Lemma mapM_length {A B : Type} (f : A -> Py.exc B) (l : list A)
    (k : list B) :
  mapM f l = Py.Return k -> length k = length l.
Proof.
  intros H. apply mapM_Return_inv in H.
  symmetry. exact (Forall2_length _ _ _ H).
Qed.

Lemma length_omap_id {A : Type} (l : list (option A)) :
  (length (omap id l) <= length l)%nat.
Proof.
  induction l as [|[x|] l IH]; [reflexivity | |].
  - change (omap id (Some x :: l)) with (x :: omap id l). cbn [length]. lia.
  - change (omap id (None :: l)) with (omap id l). cbn [length]. lia.
Qed.

(** The results [ingest_weather_data] can return. *)
Lemma ingest_result_cases {Record_ : Type}
    (sv : IngestionCheckpoint.Service Record_)
    (answers : list (option Record_)) :
  IngestionCheckpoint.fetched sv = Py.Return answers ->
  let all_records := omap id answers in
  exists result : gmap string IngestionCheckpoint.value,
    IngestionCheckpoint.ingest_weather_data sv = Py.Return result
    /\ length answers = length (IngestionCheckpoint.cities sv)
    /\ ((exists e : string,
           result = IngestionCheckpoint.failed e
           /\ (all_records = [] -> e = "No data fetched"))
        \/ (exists failed_cities nrows : Z,
              all_records <> []
              /\ IngestionCheckpoint.write_pandas sv all_records
                 = Py.Return (true, nrows)
              /\ result
                 = {[ "status" := IngestionCheckpoint.Str "SUCCESS";
                      "records_ingested" :=
                        IngestionCheckpoint.Int
                          (Z.of_nat (length all_records));
                      "successful_cities" :=
                        IngestionCheckpoint.Int
                          (Z.of_nat (length all_records));
                      "failed_cities" :=
                        IngestionCheckpoint.Int failed_cities;
                      "cities" :=
                        IngestionCheckpoint.Names
                          (IngestionCheckpoint.name
                             <$> take 5 (IngestionCheckpoint.cities sv)) ]}
              /\ (Z.of_nat (length all_records) + failed_cities
                  = Z.of_nat (length (IngestionCheckpoint.cities sv)))%Z
              /\ (0 <= failed_cities)%Z)).
Proof.
  intros Hf. cbv zeta. unfold IngestionCheckpoint.fetched in Hf.
  pose proof (mapM_length _ _ _ Hf) as Hlen. rewrite length_imap in Hlen.
  pose proof (length_omap_id answers) as Hle.
  unfold IngestionCheckpoint.ingest_weather_data.
  rewrite fetch_all_answers, Hf. cbn [mbind Py.exc_bind app].
  destruct (omap id answers) as [|r all_records] eqn:Hall.
  { eexists. split; [reflexivity |]. split; [exact Hlen |]. left. eauto. }
  destruct (IngestionCheckpoint.connect sv) as [e|[]];
    cbn [mbind Py.exc_bind].
  { eexists. split; [reflexivity |]. split; [exact Hlen |]. left.
    exists e. split; [reflexivity | discriminate]. }
  destruct (IngestionCheckpoint.create_bronze_table sv) as [e|[]];
    cbn [mbind Py.exc_bind].
  { eexists. split; [reflexivity |]. split; [exact Hlen |]. left.
    exists e. split; [reflexivity | discriminate]. }
  destruct (IngestionCheckpoint.write_pandas sv (r :: all_records))
    as [e|[success nrows]] eqn:Hw; cbn [mbind Py.exc_bind].
  { eexists. split; [reflexivity |]. split; [exact Hlen |]. left.
    exists e. split; [reflexivity | discriminate]. }
  destruct (IngestionCheckpoint.close sv) as [e|[]];
    cbn [mbind Py.exc_bind mret Py.exc_ret].
  { eexists. split; [reflexivity |]. split; [exact Hlen |]. left.
    exists e. split; [reflexivity | discriminate]. }
  destruct success.
  - eexists. split; [reflexivity |]. split; [exact Hlen |]. right.
    eexists _, nrows. split; [discriminate |]. split; [reflexivity |].
    split; [rewrite Z.add_0_l; reflexivity |]. split; lia.
  - eexists. split; [reflexivity |]. split; [exact Hlen |]. left.
    eexists. split; [reflexivity | discriminate].
Qed.

Lemma ingest_raises {Record_ : Type}
    (sv : IngestionCheckpoint.Service Record_) (e : string) :
  IngestionCheckpoint.fetched sv = Py.Raise e ->
  IngestionCheckpoint.ingest_weather_data sv = Py.Raise e.
Proof.
  unfold IngestionCheckpoint.fetched, IngestionCheckpoint.ingest_weather_data.
  intros Hf. now rewrite fetch_all_answers, Hf.
Qed.

Lemma ingest_status_lookup (v w : IngestionCheckpoint.value) (k : string) :
  ({[ "status" := v; k := w ]} : gmap string IngestionCheckpoint.value)
    !! "status" = Some v.
Proof. apply lookup_insert_eq. Qed.

(** X16. [ingest_weather_data] of the checkpoint ingestion script.  An
    exception that leaves a fetch leaves the whole call.  Otherwise a
    dictionary is returned whose status is SUCCESS or FAILED; with no record
    fetched it is the FAILED result 'No data fetched'; and a SUCCESS result
    was written by [write_pandas], reports records_ingested and
    successful_cities as the number of fetched records, at least one, with
    records_ingested + failed_cities the number of cities, and lists the
    names of the first five cities. *)
Theorem ingest_weather_data_counts {Record_ : Type}
    (sv : IngestionCheckpoint.Service Record_) :
  match IngestionCheckpoint.fetched sv with
  | Py.Raise e => IngestionCheckpoint.ingest_weather_data sv = Py.Raise e
  | Py.Return answers =>
      let all_records := omap id answers in
      exists result : gmap string IngestionCheckpoint.value,
        IngestionCheckpoint.ingest_weather_data sv = Py.Return result
        /\ (result !! "status" = Some (IngestionCheckpoint.Str "SUCCESS")
            \/ result !! "status" = Some (IngestionCheckpoint.Str "FAILED"))
        /\ (all_records = [] ->
            result = IngestionCheckpoint.failed "No data fetched")
        /\ (result !! "status" = Some (IngestionCheckpoint.Str "SUCCESS") ->
            exists failed_cities nrows : Z,
              IngestionCheckpoint.write_pandas sv all_records
              = Py.Return (true, nrows)
              /\ result
                 = {[ "status" := IngestionCheckpoint.Str "SUCCESS";
                      "records_ingested" :=
                        IngestionCheckpoint.Int
                          (Z.of_nat (length all_records));
                      "successful_cities" :=
                        IngestionCheckpoint.Int
                          (Z.of_nat (length all_records));
                      "failed_cities" :=
                        IngestionCheckpoint.Int failed_cities;
                      "cities" :=
                        IngestionCheckpoint.Names
                          (IngestionCheckpoint.name
                             <$> take 5 (IngestionCheckpoint.cities sv)) ]}
              /\ (1 <= Z.of_nat (length all_records))%Z
              /\ (Z.of_nat (length all_records) + failed_cities
                  = Z.of_nat (length (IngestionCheckpoint.cities sv)))%Z
              /\ (0 <= failed_cities)%Z
              /\ (length (take 5 (IngestionCheckpoint.cities sv)) <= 5)%nat)
  end.
Proof.
  destruct (IngestionCheckpoint.fetched sv) as [e|answers] eqn:Hf;
    [exact (ingest_raises sv e Hf) |].
  destruct (ingest_result_cases sv answers Hf)
    as (result & Hr & _ & [(e & -> & He)|(fc & nrows & Hne & Hw & -> & Hsum
                                          & Hfc)]);
    cbv zeta; eexists; (split; [exact Hr |]).
  - split; [right; apply ingest_status_lookup |].
    split; [intros Hall; now rewrite (He Hall) |].
    unfold IngestionCheckpoint.failed. rewrite ingest_status_lookup.
    intros [=].
  - split; [left; apply lookup_insert_eq |].
    split; [intros Hall; contradiction |].
    intros _. exists fc, nrows.
    split; [exact Hw |]. split; [reflexivity |].
    split; [destruct (omap id answers); [contradiction | cbn [length]; lia] |].
    split; [exact Hsum |]. split; [exact Hfc |].
    rewrite length_take. lia.
Qed.

(** ** The pipeline of [main-checkpoint.py] *)

Lemma checkpoint_result_cases (s : Checkpoint.Store) :
  let result := Checkpoint.result (Checkpoint.transform_data s) in
  (exists e : string, result = Checkpoint.failed e)
  \/ result = {[ "status" := Py.VStr "WARNING";
                 "message" := Py.VStr "No data to transform" ]}
  \/ (exists nrows : Z,
        result = {[ "status" := Py.VStr "SUCCESS";
                    "records_transformed" :=
                      Py.VInt (Z.of_nat (length (Checkpoint.enriched s)));
                    "silver_rows_written" := Py.VInt nrows ]}).
Proof.
  cbv zeta. unfold Checkpoint.enriched, Checkpoint.transform_data.
  destruct (Checkpoint.connect s) as [e|[]]; cbn [mbind Py.exc_bind];
    [left; eauto |].
  destruct (Checkpoint.create_silver_tables s) as [e|[]];
    cbn [mbind Py.exc_bind]; [left; eauto |].
  destruct (Checkpoint.read_sql s) as [e|[|r0 df]]; [left; eauto | |].
  { cbn [Checkpoint.result].
    destruct (Checkpoint.close s) as [e|[]]; [left; eauto | right; left].
    reflexivity. }
  destruct (Checkpoint.enrich_all _) as [e|df_valid]; [left; eauto |].
  destruct (Checkpoint.write_silver s df_valid) as [e|[[] nrows]];
    [left; eauto | |];
    cbn [Checkpoint.result Checkpoint.to_silver default];
    (destruct (Checkpoint.close s) as [e|[]]; [left; eauto |]);
    [right; right; eauto | left; eauto].
Qed.

Lemma ingest_returns_inv {Record_ : Type}
    (sv : IngestionCheckpoint.Service Record_)
    (result : gmap string IngestionCheckpoint.value) :
  IngestionCheckpoint.ingest_weather_data sv = Py.Return result ->
  exists answers : list (option Record_),
    IngestionCheckpoint.fetched sv = Py.Return answers.
Proof.
  intros Hr.
  destruct (IngestionCheckpoint.fetched sv) as [e|answers] eqn:Hf;
    [| eauto].
  rewrite (ingest_raises sv e Hf) in Hr. discriminate.
Qed.

(** The count [run] reads off an ingestion result. *)
Lemma ingested_count {Record_ : Type}
    (sv : IngestionCheckpoint.Service Record_)
    (result : gmap string IngestionCheckpoint.value) :
  IngestionCheckpoint.ingest_weather_data sv = Py.Return result ->
  exists ingested : Z,
    Pipeline.get_count Pipeline.ingested_int result "records_ingested"
    = Py.Return ingested
    /\ (0 <= ingested)%Z
    /\ (result !! "status" = Some (IngestionCheckpoint.Str "SUCCESS") ->
        result !! "records_ingested" = Some (IngestionCheckpoint.Int ingested)
        /\ (1 <= ingested)%Z)
    /\ (result !! "status" <> Some (IngestionCheckpoint.Str "SUCCESS") ->
        ingested = 0%Z).
Proof.
  intros Hr. destruct (ingest_returns_inv sv result Hr) as (answers & Hf).
  destruct (ingest_result_cases sv answers Hf)
    as (result' & Hr' & _ & Hcases).
  rewrite Hr in Hr'. injection Hr' as <-.
  destruct Hcases as [(e & -> & _)|(fc & nrows & Hne & _ & -> & _ & _)].
  - exists 0%Z. split; [reflexivity |]. split; [lia |].
    unfold IngestionCheckpoint.failed. rewrite ingest_status_lookup.
    split; [intros [=] | reflexivity].
  - exists (Z.of_nat (length (omap id answers))).
    split; [reflexivity |]. split; [lia |].
    split.
    + intros _. split; [reflexivity |].
      destruct (omap id answers); [contradiction | cbn [length]; lia].
    + intros Hs. exfalso. apply Hs. apply lookup_insert_eq.
Qed.

(** The count [run] reads off a transformation result. *)
Lemma transformed_count (s : Checkpoint.Store) :
  let result := Checkpoint.result (Checkpoint.transform_data s) in
  exists transformed : Z,
    Pipeline.get_count Pipeline.transformed_int result "records_transformed"
    = Py.Return transformed
    /\ (0 <= transformed)%Z
    /\ (result !! "status" = Some (Py.VStr "SUCCESS") ->
        transformed = Z.of_nat (length (Checkpoint.enriched s)))
    /\ (result !! "status" <> Some (Py.VStr "SUCCESS") ->
        transformed = 0%Z).
Proof.
  cbv zeta.
  destruct (checkpoint_result_cases s) as [(e & ->)|[->|(nrows & ->)]].
  - exists 0%Z. split; [reflexivity |]. split; [lia |].
    unfold Checkpoint.failed. rewrite status_lookup.
    split; [intros [=] | reflexivity].
  - exists 0%Z. split; [reflexivity |]. split; [lia |].
    rewrite status_lookup. split; [intros [=] | reflexivity].
  - exists (Z.of_nat (length (Checkpoint.enriched s))).
    split; [reflexivity |]. split; [lia |].
    split; [reflexivity |].
    intros Hs. exfalso. apply Hs. apply lookup_insert_eq.
Qed.

(** X17. [run] of the pipeline.  An exception of the ingestion or of the
    analytics phase is logged as FAILED with 0 records and raised again.
    Otherwise the run is logged and reported as SUCCESS whatever status the
    ingestion and the transformation returned, and records_processed is the
    sum of two counts: the records ingested, at least one, if the ingestion
    reported SUCCESS and 0 if not, and the rows handed to the silver writer
    if the transformation reported SUCCESS and 0 if not. *)
Theorem pipeline_run_report {Record_ Insights : Type}
    (p : Pipeline.Phases Record_ Insights) :
  let transformation_result :=
    Checkpoint.result (Checkpoint.transform_data (Pipeline.transformer p)) in
  let failure (e : string)
    : Pipeline.LogEntry * Py.exc (Pipeline.Report Insights) :=
    ({| Pipeline.log_status := "FAILED"; Pipeline.log_records := 0;
        Pipeline.log_error := Some e |}, Py.Raise e) in
  match IngestionCheckpoint.ingest_weather_data (Pipeline.ingestor p),
        Pipeline.generate_insights p with
  | Py.Raise e, _ => Pipeline.run p = failure e
  | Py.Return _, Py.Raise e => Pipeline.run p = failure e
  | Py.Return ingestion_result, Py.Return insights =>
      exists ingested transformed : Z,
        Pipeline.run p
        = ({| Pipeline.log_status := "SUCCESS";
              Pipeline.log_records := (ingested + transformed)%Z;
              Pipeline.log_error := None |},
           Py.Return
             {| Pipeline.status := "SUCCESS";
                Pipeline.records_processed := (ingested + transformed)%Z;
                Pipeline.ingestion := ingestion_result;
                Pipeline.transformation := transformation_result;
                Pipeline.analytics := insights |})
        /\ (0 <= ingested)%Z /\ (0 <= transformed)%Z
        /\ (ingestion_result !! "status"
            = Some (IngestionCheckpoint.Str "SUCCESS") ->
            ingestion_result !! "records_ingested"
            = Some (IngestionCheckpoint.Int ingested)
            /\ (1 <= ingested)%Z)
        /\ (ingestion_result !! "status"
            <> Some (IngestionCheckpoint.Str "SUCCESS") ->
            ingested = 0%Z)
        /\ (transformation_result !! "status" = Some (Py.VStr "SUCCESS") ->
            transformed
            = Z.of_nat (length (Checkpoint.enriched (Pipeline.transformer p))))
        /\ (transformation_result !! "status" <> Some (Py.VStr "SUCCESS") ->
            transformed = 0%Z)
  end.
Proof.
  cbv zeta. unfold Pipeline.run.
  destruct (IngestionCheckpoint.ingest_weather_data (Pipeline.ingestor p))
    as [e|ingestion_result] eqn:Hi; cbn [mbind Py.exc_bind];
    [reflexivity |].
  destruct (Pipeline.generate_insights p) as [e|insights];
    cbn [mbind Py.exc_bind]; [reflexivity |].
  destruct (ingested_count _ _ Hi) as (n & -> & Hn & Hs & Hf).
  destruct (transformed_count (Pipeline.transformer p))
    as (m & -> & Hm & Hs' & Hf').
  cbn [mbind Py.exc_bind mret Py.exc_ret Pipeline.records_processed].
  exists n, m. split; [reflexivity |].
  repeat (split; [assumption |]). assumption.
Qed.
